(** * Mask R-CNN inference wrapper: result assembly, input validation and
      anchor cache of [src/detector/vehicle/mask_rcnn/mrcnn.py]

    The development embeds the Python class [MaskRCNN] shallowly.

    - numpy arrays of rows are lists of rows; a shape tuple is a [list nat];
    - array entries are exact rationals [Q]: rounding, overflow, infinities
      and NaN of the floating point arrays are outside the model (numpy's
      division by zero gives inf/NaN where [Qdiv] gives 0);
    - a Python exception is a [Raise] result; attribute state of the detector
      object is threaded explicitly;
    - the helpers imported from [.utils], [.graphs] and [.layers] are not part
      of the file: they are the fields of the interface [Utils]. *)

From Stdlib Require Import QArith ZArith List String Bool Lia Lqa.
From stdpp Require Import gmap list.

Close Scope Q_scope.
Open Scope nat_scope.

(** ** Exceptions and fallible results *)

Inductive exn : Type :=
| AssertionError (msg : string)
| Exception (msg : string)
| ValueError
| IndexError
| KeyError.

Inductive result (A : Type) : Type :=
| Ok (a : A)
| Raise (e : exn).
Arguments Ok {A} a.
Arguments Raise {A} e.

#[global] Instance result_ret : MRet result := fun A a => Ok a.
#[global] Instance result_bind : MBind result := fun A B f m =>
  match m with
  | Ok a => f a
  | Raise e => Raise e
  end.

(** [l[i]] on a Python list or along the first axis of an array, for an index
    that is known to be non-negative. *)
Definition getitem {A} (l : list A) (i : nat) : result A :=
  match l !! i with
  | Some x => Ok x
  | None => Raise IndexError
  end.

(** ** numpy helpers *)

Module Np.

(** [np.where(cond)[0]]: the ascending indices of the rows satisfying
    [cond]. *)
Fixpoint where_from {A} (p : A -> bool) (i : nat) (l : list A) : list nat :=
  match l with
  | [] => []
  | x :: l' =>
      if p x then i :: where_from p (S i) l' else where_from p (S i) l'
  end.

Definition where_ {A} (p : A -> bool) (l : list A) : list nat :=
  where_from p 0 l.

Fixpoint delete_from {A} (i : nat) (l : list A) (ix : list nat) : list A :=
  match l with
  | [] => []
  | x :: l' =>
      if existsb (Nat.eqb i) ix
      then delete_from (S i) l' ix
      else x :: delete_from (S i) l' ix
  end.

(** [np.delete(arr, ix, axis=0)] for an index array of non-negative
    indices: an index past the end raises. *)
Definition delete {A} (l : list A) (ix : list nat) : result (list A) :=
  if forallb (fun i => i <? length l) ix
  then Ok (delete_from 0 l ix)
  else Raise IndexError.

(** Integer indexing along an axis of extent [len]: negative indices count
    from the end. *)
Definition index (len : nat) (i : Z) : result nat :=
  if ((0 <=? i) && (i <? Z.of_nat len))%Z then Ok (Z.to_nat i)
  else if ((- Z.of_nat len <=? i) && (i <? 0))%Z
       then Ok (Z.to_nat (i + Z.of_nat len))
       else Raise IndexError.

(** [x.astype(np.int32)] on a float entry: truncation toward zero. *)
Definition astype_int32 (q : Q) : Z := Z.quot (Qnum q) (Z.pos (Qden q)).

End Np.

(** ** Boxes and detection rows *)

(** A row [(y1, x1, y2, x2)]. *)
Record box : Type := Box { y1 : Q; x1 : Q; y2 : Q; x2 : Q }.

(** A row [(y1, x1, y2, x2, class_id, score)] of the detections tensor. *)
Record detection : Type :=
  Detection { det_box : box; det_class_id : Q; det_score : Q }.

Definition box_sub (a b : box) : box :=
  Box (y1 a - y1 b)%Q (x1 a - x1 b)%Q (y2 a - y2 b)%Q (x2 a - x2 b)%Q.

(** [np.divide] on rows.  The quotient is the code's for a divisor that is
    not zero; on a zero divisor numpy gives inf or nan where [Qdiv] gives 0,
    so what is proved of the quotient is proved for windows that have an
    extent ([window_has_extent] below). *)
Definition box_divide (a b : box) : box :=
  Box (y1 a / y1 b)%Q (x1 a / x1 b)%Q (y2 a / y2 b)%Q (x2 a / x2 b)%Q.

(** [(boxes[:, 2] - boxes[:, 0]) * (boxes[:, 3] - boxes[:, 1])] *)
Definition box_area (b : box) : Q := ((y2 b - y1 b) * (x2 b - x1 b))%Q.

Definition zero_area (b : box) : bool := Qle_bool (box_area b) 0.

Definition is_padding (d : detection) : bool := Qeq_bool (det_class_id d) 0.

(** ** Configuration and external collaborators *)

(** The attributes of the configuration object that the class reads. *)
Record Config : Type :=
  { IMAGE_SHAPE : list Z;
    IMAGE_MIN_DIM : Z;
    IMAGE_MIN_SCALE : Q;
    IMAGE_MAX_DIM : Z;
    IMAGE_RESIZE_MODE : string;
    NUM_CLASSES : nat;
    BATCH_SIZE : nat;
    RPN_ANCHOR_SCALES : list Q;
    RPN_ANCHOR_RATIOS : list Q;
    BACKBONE_STRIDES : list Z;
    RPN_ANCHOR_STRIDE : Z }.

(** What [mrcnn.py] imports from [.utils], [.graphs], [.layers] and Keras.
    None of it is defined in the file, so the class is verified against
    this interface.  [norm_boxes] and [denorm_boxes] are the row functions of
    the vectorised helpers; [build_graph] stands for the Keras graph that
    [build] assembles after its size check and [predict] for
    [keras_model.predict], of which only the detections and the raw masks
    are used. *)
Class Utils : Type :=
  { image : Type;
    shape : image -> list nat;
    raw_mask : Type;
    full_mask : Type;
    mask_shape : full_mask -> list nat;
    image_meta : Type;
    meta_shape : image_meta -> list nat;
    padding : Type;
    crop : Type;
    backbone_shapes : Type;
    keras_model : Type;
    resize_image :
      image -> Z -> Q -> Z -> string -> image * box * Q * padding * crop;
    mold_image : image -> Config -> image;
    compose_image_meta :
      Z -> list nat -> list nat -> box -> Q -> list Z -> image_meta;
    norm_boxes : box -> list nat -> box;
    denorm_boxes : box -> list nat -> box;
    unmold_mask : raw_mask -> box -> list nat -> full_mask;
    compute_backbone_shapes : Config -> list nat -> backbone_shapes;
    generate_pyramid_anchors :
      list Q -> list Q -> backbone_shapes -> list Z -> Z -> list box;
    build_graph : Config -> keras_model;
    predict :
      keras_model -> list image -> list image_meta -> list (list box) ->
      list (list detection) * list (list (list raw_mask)) }.

(** [np.stack(arrays)] along a new first axis: the arrays must be at least
    one and of one shape. *)
Definition np_stack {A} (shape_of : A -> list nat) (arrays : list A)
  : result (list A) :=
  match arrays with
  | [] => Raise ValueError
  | a :: rest =>
      if forallb (fun b => bool_decide (shape_of b = shape_of a)) rest
      then Ok arrays
      else Raise ValueError
  end.

(** [assert cond, msg], with assertions enabled (the interpreter is not run
    with [-O]). *)
Definition assert_ (cond : bool) (msg : string) : result unit :=
  if cond then Ok tt else Raise (AssertionError msg).

(** ** Result assembly: [MaskRCNN.unmold_detections] *)

Section Unmold.

Context {U : Utils}.

(** The [H x W x N] array of instance masks: its shape and its [N] planes
    along the last axis. *)
Record mask_stack : Type :=
  MaskStack { stack_shape : list nat; stack_planes : list full_mask }.

(** [np.stack(arrays, axis=-1)] *)
Definition np_stack_last (arrays : list full_mask) : result mask_stack :=
  match arrays with
  | [] => Raise ValueError
  | m :: ms =>
      if forallb (fun m' => bool_decide (mask_shape m' = mask_shape m)) ms
      then Ok (MaskStack (mask_shape m ++ [length arrays]) arrays)
      else Raise ValueError
  end.

(** [np.empty(shape)] for a shape with a zero extent. *)
Definition np_empty (shape : list nat) : mask_stack := MaskStack shape [].

(** [N]: the index of the first row with [class_id == 0], or the row
    count. *)
Definition valid_count (detections : list detection) : nat :=
  let zero_ix := Np.where_ is_padding detections in
  match zero_ix with
  | i :: _ => i
  | [] => length detections
  end.

(** [mrcnn_mask[np.arange(N), :, :, class_ids]]; [mrcnn_mask[i]] is held as
    the list of its class channels. *)
Definition select_masks (mrcnn_mask : list (list raw_mask)) (N : nat)
    (class_ids : list Z) : result (list raw_mask) :=
  mapM (fun ic : nat * Z =>
          row ← getitem mrcnn_mask ic.1;
          c ← Np.index (length row) ic.2;
          getitem row c)
       (zip (seq 0 N) class_ids).

(** Lines 264-272 on one row: [window] is the window already normalised;
    the box is shifted, scaled and taken to pixels of the original
    image. *)
Definition unmold_box (window : box) (original_image_shape : list nat)
    (b : box) : box :=
  let (wy1, wx1, wy2, wx2) := window in
  let shift := Box wy1 wx1 wy1 wx1 in
  let wh := (wy2 - wy1)%Q in
  let ww := (wx2 - wx1)%Q in
  let scale := Box wh ww wh ww in
  denorm_boxes (box_divide (box_sub b shift) scale)
               (take 2 original_image_shape).

(** Lines 250-284: the rows kept before the masks are resized (boxes in
    pixels, class ids, scores, selected raw masks) and the final [N]. *)
Definition unmold_rows (detections : list detection)
    (mrcnn_mask : list (list raw_mask))
    (original_image_shape image_shape : list nat) (window : box)
  : result (list box * list Z * list Q * list raw_mask * nat) :=
  let N := valid_count detections in
  let boxes := map det_box (take N detections) in
  let class_ids := map (fun d => Np.astype_int32 (det_class_id d))
                       (take N detections) in
  let scores := map det_score (take N detections) in
  masks ← select_masks mrcnn_mask N class_ids;
  let window := norm_boxes window (take 2 image_shape) in
  let boxes := map (unmold_box window original_image_shape) boxes in
  let exclude_ix := Np.where_ zero_area boxes in
  if 0 <? length exclude_ix then
    boxes ← Np.delete boxes exclude_ix;
    class_ids ← Np.delete class_ids exclude_ix;
    scores ← Np.delete scores exclude_ix;
    masks ← Np.delete masks exclude_ix;
    let N := length class_ids in
    Ok (boxes, class_ids, scores, masks, N)
  else Ok (boxes, class_ids, scores, masks, N).

(** Lines 286-293: the loop over [range(N)] and the stacking. *)
Definition stack_full_masks (masks : list raw_mask) (boxes : list box)
    (N : nat) (original_image_shape : list nat) : result mask_stack :=
  full_masks ← mapM (fun i =>
                       m ← getitem masks i;
                       b ← getitem boxes i;
                       Ok (unmold_mask m b original_image_shape))
                    (seq 0 N);
  match full_masks with
  | _ :: _ => np_stack_last full_masks
  | [] => Ok (np_empty (take 2 original_image_shape ++ [0]))
  end.

Definition unmold_detections (detections : list detection)
    (mrcnn_mask : list (list raw_mask))
    (original_image_shape image_shape : list nat) (window : box)
  : result (list box * list Z * list Q * mask_stack) :=
  '(boxes, class_ids, scores, masks, N) ←
    unmold_rows detections mrcnn_mask original_image_shape image_shape
                window;
  full_masks ← stack_full_masks masks boxes N original_image_shape;
  Ok (boxes, class_ids, scores, full_masks).

End Unmold.

(** ** The detector object *)

(** Events of a run that the claims speak about: a call of
    [generate_pyramid_anchors] for a molded shape, and a call of the
    predictor. *)
Inductive event : Type :=
| Generate (image_shape : list nat)
| Predict.

(** The part of the Python process outside the detector objects: the arrays
    allocated for anchors (an array is identified by its index here, so that
    two references can be compared) and the events so far. *)
Record process : Type :=
  Process { arrays : list (list box); trace : list event }.

Definition alloc (a : list box) (p : process) : nat * process :=
  (length (arrays p), Process (arrays p ++ [a]) (trace p)).

Definition log (e : event) (p : process) : process :=
  Process (arrays p) (trace p ++ [e]).

Section Detector.

Context {U : Utils}.

(** The attributes of a [MaskRCNN] instance; [_anchor_cache] and [anchors]
    do not exist until [get_anchors] creates them. *)
Record MaskRCNN : Type :=
  { config : Config;
    self_keras_model : keras_model;
    _anchor_cache : option (gmap (list nat) nat);
    anchors : option nat }.

(** [int(x)] on a float: truncation toward zero. *)
Definition py_int (q : Q) : Z := Z.quot (Qnum q) (Z.pos (Qden q)).

(** [h / 2 ** 6 != int(h / 2 ** 6)].  The quotient is exact here; the code's
    is a float, which is the same number for [|h| < 2 ^ 53] (an integer of
    that size is a float, and so is its quotient by 64) and may be another,
    or an [OverflowError], beyond. *)
Definition not_dividable (h : Z) : bool :=
  let q := (inject_Z h / inject_Z (2 ^ 6))%Q in
  negb (Qeq_bool q (inject_Z (py_int q))).

Definition build_message : string :=
  "Image size must be dividable by 2 at least 6 times to avoid fractions when downscaling and upscaling.For example, use 256, 320, 384, 448, 512, ... etc. ".

(** [MaskRCNN.build]: the size check, the read of [config.IMAGE_SHAPE[2]]
    for the input layer, then the Keras graph. *)
Definition build (config : Config) : result keras_model :=
  match take 2 (IMAGE_SHAPE config) with
  | [h; w] =>
      if not_dividable h || not_dividable w
      then Raise (Exception build_message)
      else
        _ ← getitem (IMAGE_SHAPE config) 2;
        Ok (build_graph config)
  | _ => Raise ValueError
  end.

(** [MaskRCNN.__init__] *)
Definition init (config : Config) : result MaskRCNN :=
  model ← build config;
  Ok {| config := config; self_keras_model := model;
        _anchor_cache := None; anchors := None |}.

(** The body of the loop of [mold_inputs] for one image. *)
Definition mold_one (cfg : Config) (img : image) : image * image_meta * box :=
  let '(molded_image, window, scale, _, _) :=
    resize_image img (IMAGE_MIN_DIM cfg) (IMAGE_MIN_SCALE cfg)
                 (IMAGE_MAX_DIM cfg) (IMAGE_RESIZE_MODE cfg) in
  let molded_image := mold_image molded_image cfg in
  let meta :=
    compose_image_meta 0 (shape img) (shape molded_image) window scale
                       (repeat 0%Z (NUM_CLASSES cfg)) in
  (molded_image, meta, window).

(** [MaskRCNN.mold_inputs] *)
Definition mold_inputs (cfg : Config) (images : list image)
  : result (list image * list image_meta * list box) :=
  let molded := map (mold_one cfg) images in
  let molded_images := map (fun m => m.1.1) molded in
  let windows := map (fun m => m.2) molded in
  let image_metas := map (fun m => m.1.2) molded in
  molded_images ← np_stack shape molded_images;
  image_metas ← np_stack meta_shape image_metas;
  windows ← np_stack (fun _ : box => [4]) windows;
  Ok (molded_images, image_metas, windows).

(** Methods run on an instance inside a process; an exception leaves the
    state as it was when it was raised. *)
Definition M (A : Type) : Type :=
  MaskRCNN * process -> result A * (MaskRCNN * process).

#[global] Instance M_ret : MRet M := fun A a st => (Ok a, st).
#[global] Instance M_bind : MBind M := fun A B f m st =>
  match m st with
  | (Ok a, st') => f a st'
  | (Raise e, st') => (Raise e, st')
  end.

Definition lift {A} (r : result A) : M A := fun st => (r, st).

Definition self_config : M Config := fun st => (Ok (config st.1), st).

(** [MaskRCNN.get_anchors]; the result is the reference held by the cache. *)
Definition get_anchors (image_shape : list nat) : M nat := fun st =>
  let '(self, p) := st in
  let backbone_shapes := compute_backbone_shapes (config self) image_shape in
  let cache :=
    match _anchor_cache self with
    | Some c => c
    | None => ∅
    end in
  let '(cache, latest, p) :=
    match cache !! image_shape with
    | Some _ => (cache, anchors self, p)
    | None =>
        let a := generate_pyramid_anchors
                   (RPN_ANCHOR_SCALES (config self))
                   (RPN_ANCHOR_RATIOS (config self))
                   backbone_shapes
                   (BACKBONE_STRIDES (config self))
                   (RPN_ANCHOR_STRIDE (config self)) in
        let '(ra, p) := alloc a (log (Generate image_shape) p) in
        let '(rn, p) :=
          alloc (map (fun b => norm_boxes b (take 2 image_shape)) a) p in
        (<[image_shape := rn]> cache, Some ra, p)
    end in
  let self := {| config := config self;
                 self_keras_model := self_keras_model self;
                 _anchor_cache := Some cache;
                 anchors := latest |} in
  match cache !! image_shape with
  | Some r => (Ok r, (self, p))
  | None => (Raise KeyError, (self, p))
  end.

(** The array behind a reference. *)
Definition deref (r : nat) : M (list box) := fun st =>
  (getitem (arrays st.2) r, st).

(** [self.keras_model.predict([molded_images, image_metas, anchors])] *)
Definition keras_predict (molded_images : list image)
    (image_metas : list image_meta) (anchors : list (list box))
  : M (list (list detection) * list (list (list raw_mask))) := fun st =>
  let '(self, p) := st in
  (Ok (predict (self_keras_model self) molded_images image_metas anchors),
   (self, log Predict p)).

(** The dict built for one image. *)
Record result_record : Type :=
  { rois : list box;
    class_ids : list Z;
    scores : list Q;
    masks : mask_stack }.

Definition batch_message : string :=
  "len(images) must be equal to BATCH_SIZE".

Definition shape_message : string :=
  "After resizing, all images must have the same size. Check IMAGE_RESIZE_MODE and image sizes.".

(** The body of the loop of [detect] for the image at index [i]. *)
Definition detect_one (detections : list (list detection))
    (mrcnn_mask : list (list (list raw_mask))) (molded_images : list image)
    (windows : list box) (i : nat) (img : image) : result result_record :=
  d ← getitem detections i;
  m ← getitem mrcnn_mask i;
  g ← getitem molded_images i;
  w ← getitem windows i;
  '(final_rois, final_class_ids, final_scores, final_masks) ←
    unmold_detections d m (shape img) (shape g) w;
  Ok {| rois := final_rois; class_ids := final_class_ids;
        scores := final_scores; masks := final_masks |}.

(** [MaskRCNN.detect] *)
Definition detect (images : list image) : M (list result_record) :=
  cfg ← self_config;
  _ ← lift (assert_ (length images =? BATCH_SIZE cfg) batch_message);
  '(molded_images, image_metas, windows) ← lift (mold_inputs cfg images);
  g0 ← lift (getitem molded_images 0);
  let image_shape := shape g0 in
  _ ← lift (mapM (fun g => assert_ (bool_decide (shape g = image_shape))
                                   shape_message)
                 (drop 1 molded_images));
  r ← get_anchors image_shape;
  a ← deref r;
  let anchors := repeat a (BATCH_SIZE cfg) in
  '(detections, mrcnn_mask) ← keras_predict molded_images image_metas anchors;
  lift (mapM (fun ii => detect_one detections mrcnn_mask molded_images
                                   windows ii.1 ii.2)
             (imap pair images)).

End Detector.

Arguments MaskRCNN U : clear implicits.
Arguments M U A : clear implicits.
Arguments result_record U : clear implicits.
Arguments mask_stack U : clear implicits.


(** ** Runs of [get_anchors] *)

#[global] Instance event_eq_dec : EqDecision event.
Proof. solve_decision. Defined.

(** The cache of an instance, empty while the attribute does not exist. *)
Definition cache_of `{U : Utils} (self : MaskRCNN U) : gmap (list nat) nat :=
  match _anchor_cache self with
  | Some c => c
  | None => ∅
  end.

(** [get_anchors] called for each shape of a list in turn, on one
    instance. *)
Fixpoint get_anchors_all `{U : Utils} (shapes : list (list nat))
    (st : MaskRCNN U * process)
  : list (result nat) * (MaskRCNN U * process) :=
  match shapes with
  | [] => ([], st)
  | s :: rest =>
      let (r, st1) := get_anchors s st in
      let (rs, st2) := get_anchors_all rest st1 in
      (r :: rs, st2)
  end.

(** The number of times anchors were generated for a shape. *)
Definition generations (s : list nat) (t : list event) : nat :=
  length (List.filter (fun e => bool_decide (e = Generate s)) t).

(** ** Rows of one image, seen together

    [unmold_detections] keeps four parallel arrays.  The row view pairs each
    of the first [N] detections with its selected raw mask; it is what the
    parallel arrays are compared with. *)
Definition unmolded_row `{U : Utils} (window : box)
    (original_image_shape : list nat) (r : detection * raw_mask)
  : box * Z * Q * raw_mask :=
  (unmold_box window original_image_shape (det_box r.1),
   Np.astype_int32 (det_class_id r.1), det_score r.1, r.2).

Definition row_box {A} (r : box * Z * Q * A) : box := r.1.1.1.
Definition row_class_id {A} (r : box * Z * Q * A) : Z := r.1.1.2.
Definition row_score {A} (r : box * Z * Q * A) : Q := r.1.2.
Definition row_mask {A} (r : box * Z * Q * A) : A := r.2.

(** The rows with a box of positive area, in order. *)
Definition kept_rows `{U : Utils} (detections : list detection)
    (selected : list raw_mask) (original_image_shape image_shape : list nat)
    (window : box) : list (box * Z * Q * raw_mask) :=
  List.filter (fun r => negb (zero_area (row_box r)))
    (map (unmolded_row (norm_boxes window (take 2 image_shape))
                       original_image_shape)
         (zip (take (valid_count detections) detections) selected)).

(** A window, normalised, with a height and a width that are not zero: the
    divisions of [unmold_box] are then divisions of numbers. *)
Definition window_has_extent (w : box) : Prop :=
  ~ (y2 w - y1 w == 0)%Q /\ ~ (x2 w - x1 w == 0)%Q.

(** Sizes that are floats exactly. *)
Definition float_exact (h : Z) : Prop := (Z.abs h < 2 ^ 53)%Z.

(** [utils.unmold_mask] returns an array of the first two extents of the
    shape it is given. *)
Definition unmold_mask_on_canvas `{U : Utils} : Prop :=
  forall m b s, mask_shape (unmold_mask m b s) = take 2 s.

(** The raw outputs of the predictor for one image fit together: a mask row
    per detection row, and every class id, as an integer, names one of the
    class channels of its mask row. *)
Definition raw_outputs_fit `{U : Utils} (detections : list detection)
    (mrcnn_mask : list (list raw_mask)) : Prop :=
  length mrcnn_mask = length detections /\
  forall i d row,
    detections !! i = Some d -> mrcnn_mask !! i = Some row ->
    (0 <= Np.astype_int32 (det_class_id d) < Z.of_nat (length row))%Z.

(** ** The specification's wording of the box mapping

    Section 4.5, step 3 of the specification: the window is converted to
    pixel space in molded-image coordinates, then its top-left corner is
    subtracted, the result divided by the window's height and width and
    denormalised against the original image shape.  The window that
    [unmold_detections] receives is in pixels already; both ways of reading
    the first step are written down: a conversion by [denorm_boxes], and the
    window left as it is. *)
Definition spec_unmold_box_converted `{U : Utils} (window : box)
    (image_shape original_image_shape : list nat) (b : box) : box :=
  unmold_box (denorm_boxes window (take 2 image_shape))
             original_image_shape b.

Definition spec_unmold_box_pixels `{U : Utils} (window : box)
    (image_shape original_image_shape : list nat) (b : box) : box :=
  unmold_box window original_image_shape b.

(** ** A concrete set of collaborators

    Used to run the class on examples: images are reduced to their shape, the
    predictor is a stub with a fixed answer per image. *)
Module Stub.

Definition extent (shape : list nat) (k : nat) : Q :=
  inject_Z (Z.of_nat (nth k shape 0) - 1).

(** Modelled from the spec: [utils.norm_boxes] is missing; section 4.1 has
    normalized = pixel / (dim - 1), with (y1, x1, y2, x2) scaled by
    (H-1, W-1, H-1, W-1). *)
Definition norm_boxes_spec (b : box) (shape : list nat) : box :=
  let h := extent shape 0 in
  let w := extent shape 1 in
  Box (y1 b / h)%Q (x1 b / w)%Q (y2 b / h)%Q (x2 b / w)%Q.

(** Modelled from the spec: [utils.denorm_boxes] is missing; section 4.1 has
    it as the exact inverse of the normalisation. *)
Definition denorm_boxes_spec (b : box) (shape : list nat) : box :=
  let h := extent shape 0 in
  let w := extent shape 1 in
  Box (y1 b * h)%Q (x1 b * w)%Q (y2 b * h)%Q (x2 b * w)%Q.

(** Modelled from the spec: [utils.unmold_mask] is missing; section 4.1 has it
    resize the small mask to the extent of the box and write it into a zero
    array of the original shape.  The array is kept as its shape, the box and
    the small mask it was made from. *)
Record canvas : Type :=
  Canvas { canvas_shape : list nat; canvas_box : box; canvas_source : nat }.

Definition unmold_mask_spec (m : nat) (b : box) (shape : list nat) : canvas :=
  Canvas (take 2 shape) b m.

(** The image meta as the tuple of what it is composed of. *)
Definition meta : Type := Z * list nat * list nat * box * Q * list Z.

Definition compose_meta (image_id : Z) (original_image_shape
    image_shape : list nat) (window : box) (scale : Q)
    (active_class_ids : list Z) : meta :=
  (image_id, original_image_shape, image_shape, window, scale,
   active_class_ids).

Definition meta_shape_of (m : meta) : list nat :=
  [1 + length m.1.1.1.1.2 + length m.1.1.1.2 + 4 + 1 + length m.2].

Definition active_class_ids (m : meta) : list Z := m.2.

(** Resizing in mode none: the image as it is, the window the whole image. *)
Definition resize_image_none (img : list nat) (min_dim : Z) (min_scale : Q)
    (max_dim : Z) (mode : string) : list nat * box * Q * unit * unit :=
  (img,
   Box 0 0 (inject_Z (Z.of_nat (nth 0 img 0)))
       (inject_Z (Z.of_nat (nth 1 img 0))),
   1%Q, tt, tt).

(** One anchor over the whole image. *)
Definition one_anchor (scales ratios : list Q)
    (shapes : list nat) (strides : list Z) (stride : Z) : list box :=
  [Box 0 0 (extent shapes 0) (extent shapes 1)].

(** The predictor's answer for every image: a detection of class 1 over the
    upper left quarter, a degenerate detection of class 2, a padding row, and
    a row of class 1 after the padding.  Each raw mask has three class
    channels, named by the numbers [10 * row + class]. *)
Definition stub_detections : list detection :=
  [ Detection (Box 0 0 (1 # 2) (1 # 2)) 1 (9 # 10);
    Detection (Box (1 # 4) 0 (1 # 4) 1) 2 (8 # 10);
    Detection (Box 0 0 0 0) 0 0;
    Detection (Box 0 0 1 1) 1 (7 # 10) ].

Definition stub_masks : list (list nat) :=
  [ [0; 1; 2]; [10; 11; 12]; [20; 21; 22]; [30; 31; 32] ]%nat.

Definition stub_predict (model : unit) (molded_images : list (list nat))
    (metas : list meta) (anchors : list (list box))
  : list (list detection) * list (list (list nat)) :=
  (map (fun _ => stub_detections) molded_images,
   map (fun _ => stub_masks) molded_images).

#[local] Instance utils : Utils :=
  {| image := list nat;
     shape := fun img => img;
     raw_mask := nat;
     full_mask := canvas;
     mask_shape := canvas_shape;
     image_meta := meta;
     meta_shape := meta_shape_of;
     padding := unit;
     crop := unit;
     backbone_shapes := list nat;
     keras_model := unit;
     resize_image := resize_image_none;
     mold_image := fun img _ => img;
     compose_image_meta := compose_meta;
     norm_boxes := norm_boxes_spec;
     denorm_boxes := denorm_boxes_spec;
     unmold_mask := unmold_mask_spec;
     compute_backbone_shapes := fun _ image_shape => image_shape;
     generate_pyramid_anchors := one_anchor;
     build_graph := fun _ => tt;
     predict := stub_predict |}.

Definition cfg : Config :=
  {| IMAGE_SHAPE := [128; 128; 3]%Z;
     IMAGE_MIN_DIM := 128;
     IMAGE_MIN_SCALE := 0;
     IMAGE_MAX_DIM := 128;
     IMAGE_RESIZE_MODE := "none";
     NUM_CLASSES := 3;
     BATCH_SIZE := 2;
     RPN_ANCHOR_SCALES := [32%Q];
     RPN_ANCHOR_RATIOS := [1%Q];
     BACKBONE_STRIDES := [4%Z];
     RPN_ANCHOR_STRIDE := 1 |}.

Definition detector : MaskRCNN utils :=
  {| config := cfg; self_keras_model := tt;
     _anchor_cache := None; anchors := None |}.

Definition fresh : process := Process [] [].

Definition img128 : list nat := [128; 128; 3].
Definition img65 : list nat := [65; 65; 3].

Definition window128 : box := Box 0 0 128 128.

(** What [unmold_detections] returns for the stub's answer on a 128 x 128
    image. *)
Definition stub_output : list box * list Z * list Q * mask_stack utils :=
  Eval vm_compute in
    match unmold_detections stub_detections stub_masks img128 img128
                            window128 with
    | Ok r => r
    | Raise _ => ([], [], [], MaskStack [] [])
    end.

(** A batch of two images through [mold_inputs] and through [detect]. *)
Definition stub_molded : list (list nat) * list meta * list box :=
  Eval vm_compute in
    match mold_inputs cfg [img128; img128] with
    | Ok r => r
    | Raise _ => ([], [], [])
    end.

Definition stub_run : result (list (result_record utils)) *
                      (MaskRCNN utils * process) :=
  detect [img128; img128] (detector, fresh).

Definition stub_results : list (result_record utils) :=
  match stub_run.1 with
  | Ok r => r
  | Raise _ => []
  end.

(** Detections that are all degenerate or padding. *)
Definition flat_detections : list detection :=
  [ Detection (Box (1 # 4) 0 (1 # 4) 1) 2 (8 # 10);
    Detection (Box 0 0 0 0) 0 0 ].

Definition flat_masks : list (list nat) := [ [0; 1; 2]; [10; 11; 12] ]%nat.

(** A molded image of 101 x 101 whose window leaves out ten rows of padding
    above and below, for an original image of 81 x 101, and a detection over
    the whole window. *)
Definition padded_window : box := Box 10 0 90 100.
Definition padded_shape : list nat := [101; 101; 3].
Definition padded_original : list nat := [81; 101; 3].
Definition padded_detections : list detection :=
  [ Detection (Box (1 # 10) 0 (9 # 10) 1) 1 (9 # 10) ].
Definition padded_masks : list (list nat) := [ [0; 1] ]%nat.

(** The detector after a call of [get_anchors] for a 65 x 65 image. *)
Definition warm : MaskRCNN utils * process :=
  (get_anchors img65 (detector, fresh)).2.

(** One detection of class 5, for masks of three class channels. *)
Definition stray_detections : list detection :=
  [ Detection (Box 0 0 1 1) 5 (9 # 10) ].

(** A configuration whose image shape has one extent only. *)
Definition short_cfg : Config :=
  {| IMAGE_SHAPE := [128%Z];
     IMAGE_MIN_DIM := 128;
     IMAGE_MIN_SCALE := 0;
     IMAGE_MAX_DIM := 128;
     IMAGE_RESIZE_MODE := "none";
     NUM_CLASSES := 3;
     BATCH_SIZE := 2;
     RPN_ANCHOR_SCALES := [32%Q];
     RPN_ANCHOR_RATIOS := [1%Q];
     BACKBONE_STRIDES := [4%Z];
     RPN_ANCHOR_STRIDE := 1 |}.

End Stub.


(** ** The detector without its cache

    What [get_anchors] computes for a shape when nothing is cached: the
    pyramid in pixels, and the pyramid normalised against the first two
    extents of the shape. *)
Definition pixel_anchors_for `{U : Utils} (cfg : Config)
    (image_shape : list nat) : list box :=
  generate_pyramid_anchors (RPN_ANCHOR_SCALES cfg) (RPN_ANCHOR_RATIOS cfg)
    (compute_backbone_shapes cfg image_shape) (BACKBONE_STRIDES cfg)
    (RPN_ANCHOR_STRIDE cfg).

Definition anchors_for `{U : Utils} (cfg : Config) (image_shape : list nat)
  : list box :=
  map (fun b => norm_boxes b (take 2 image_shape))
      (pixel_anchors_for cfg image_shape).

(** Every entry of the cache refers to the normalised anchors of its
    shape. *)
Definition cache_sound `{U : Utils} (self : MaskRCNN U) (p : process)
  : Prop :=
  forall s r, cache_of self !! s = Some r ->
              arrays p !! r = Some (anchors_for (config self) s).

(** [detect] with the anchors computed afresh on every call. *)
Definition detect_uncached `{U : Utils} (self : MaskRCNN U)
    (images : list image) : result (list (result_record U)) :=
  let cfg := config self in
  _ ← assert_ (length images =? BATCH_SIZE cfg) batch_message;
  '(molded_images, image_metas, windows) ← mold_inputs cfg images;
  g0 ← getitem molded_images 0;
  _ ← mapM (fun g => assert_ (bool_decide (shape g = shape g0))
                             shape_message)
           (drop 1 molded_images);
  let anchors := repeat (anchors_for cfg (shape g0)) (BATCH_SIZE cfg) in
  let out := predict (self_keras_model self) molded_images image_metas
                     anchors in
  mapM (fun ii => detect_one out.1 out.2 molded_images windows ii.1 ii.2)
       (imap pair images).

(** The molded shape of a batch that passes the checks of [detect]. *)
Definition accepted_shape `{U : Utils} (cfg : Config) (images : list image)
  : option (list nat) :=
  if length images =? BATCH_SIZE cfg then
    match mold_inputs cfg images with
    | Ok (g0 :: _, _, _) => Some (shape g0)
    | _ => None
    end
  else None.

(** The predictor answers a batch with, for every image, a detections array
    and a mask array that fit together. *)
Definition predictor_fits `{U : Utils} (self : MaskRCNN U)
    (images : list image) : Prop :=
  forall molded_images image_metas windows g0,
    mold_inputs (config self) images =
      Ok (molded_images, image_metas, windows) ->
    molded_images !! 0 = Some g0 ->
    let out := predict (self_keras_model self) molded_images image_metas
                 (repeat (anchors_for (config self) (shape g0))
                         (BATCH_SIZE (config self))) in
    forall i, i < length images ->
      exists d m, out.1 !! i = Some d /\ out.2 !! i = Some m /\
                  raw_outputs_fit d m.

(** * Properties *)

(** ** Fallible loops *)

Lemma mapM_Ok {A B} (f : A -> result B) (l : list A) (k : list B) :
  mapM f l = Ok k <-> Forall2 (fun x y => f x = Ok y) l k.
Proof.
  revert k. induction l as [|x l IH]; intros k; simpl.
  - split.
    + intros [= <-]. constructor.
    + intros H. inversion H. reflexivity.
  - unfold mbind, result_bind, mret, result_ret. split.
    + destruct (f x) as [y|e] eqn:Hx; [|discriminate].
      destruct (mapM f l) as [k'|e] eqn:Hl; [|discriminate].
      intros [= <-]. constructor; [assumption|]. apply IH. reflexivity.
    + intros H. inversion H as [|? y ? k' Hy Hk]; subst.
      rewrite Hy. apply IH in Hk.
      unfold mbind, result_bind, mret, result_ret in Hk. rewrite Hk.
      reflexivity.
Qed.

Lemma mapM_Raise {A B} (f : A -> result B) (l : list A) (e : exn) :
  mapM f l = Raise e -> exists x, x ∈ l /\ f x = Raise e.
Proof.
  induction l as [|x l IH]; simpl; [discriminate|].
  unfold mbind, result_bind, mret, result_ret.
  destruct (f x) as [y|e'] eqn:Hx.
  - destruct (mapM f l) as [k'|e''] eqn:Hl; [discriminate|].
    intros [= ->]. destruct IH as (z & Hz & Hfz); [reflexivity|].
    exists z. split; [by right | assumption].
  - intros [= ->]. exists x. split; [by left | assumption].
Qed.

Lemma mapM_ext_in {A B} (f g : A -> result B) (l : list A) :
  (forall x, x ∈ l -> f x = g x) -> mapM f l = mapM g l.
Proof.
  induction l as [|x l IH]; intros H; simpl; [reflexivity|].
  rewrite (H x) by (by left).
  rewrite IH; [reflexivity|]. intros z Hz. apply H. by right.
Qed.

Lemma bind_Ok {A B} (a : A) (f : A -> result B) : (Ok a ≫= f) = f a.
Proof. reflexivity. Qed.

Lemma bind_Raise {A B} (e : exn) (f : A -> result B) :
  (Raise e ≫= f) = Raise e.
Proof. reflexivity. Qed.

Lemma getitem_Ok {A} (l : list A) (i : nat) (x : A) :
  getitem l i = Ok x <-> l !! i = Some x.
Proof.
  unfold getitem. destruct (l !! i); split; intros H; congruence.
Qed.

(** ** [np.where] and [np.delete] *)

Lemma where_from_ge {A} (p : A -> bool) (i : nat) (l : list A) (j : nat) :
  j ∈ Np.where_from p i l -> i <= j < i + length l.
Proof.
  revert i. induction l as [|x l IH]; intros i; simpl.
  - intros H. inversion H.
  - destruct (p x).
    + intros [->|H]%elem_of_cons; [lia|]. apply IH in H. lia.
    + intros H. apply IH in H. lia.
Qed.

Lemma where_from_head {A} (p : A -> bool) (i : nat) (l : list A) :
  match Np.where_from p i l with
  | j :: _ =>
      exists k x, j = i + k /\ l !! k = Some x /\ p x = true /\
                  forall k' x', k' < k -> l !! k' = Some x' -> p x' = false
  | [] => forall x, x ∈ l -> p x = false
  end.
Proof.
  revert i. induction l as [|x l IH]; intros i; simpl.
  - intros x H. inversion H.
  - destruct (p x) eqn:Hx.
    + exists 0, x. repeat split; [lia|assumption|]. intros k' x' Hk. lia.
    + specialize (IH (S i)).
      destruct (Np.where_from p (S i) l) as [|j ix].
      * intros z [->|Hz]%elem_of_cons; [assumption|]. by apply IH.
      * destruct IH as (k & z & -> & Hz & Hpz & Hbefore).
        exists (S k), z. repeat split; [lia|assumption|assumption|].
        intros [|k'] x' Hk Hx'; simpl in Hx'.
        -- congruence.
        -- apply (Hbefore k'); [lia|assumption].
Qed.

Lemma delete_from_lt {A} (j i : nat) (l : list A) (ix : list nat) :
  i < j -> Np.delete_from j l (i :: ix) = Np.delete_from j l ix.
Proof.
  revert j. induction l as [|x l IH]; intros j Hij; simpl; [reflexivity|].
  destruct (Nat.eqb_spec j i) as [->|_]; [lia|]. simpl.
  rewrite IH by lia. reflexivity.
Qed.

Lemma existsb_where_from {A} (p : A -> bool) (i : nat) (l : list A) :
  existsb (Nat.eqb i) (Np.where_from p (S i) l) = false.
Proof.
  apply not_true_is_false. intros (j & Hj & Heq)%existsb_exists.
  apply Nat.eqb_eq in Heq. subst j.
  apply list_elem_of_In, where_from_ge in Hj. lia.
Qed.

(** Deleting, from an array of values, the rows that [np.where] finds in the
    array of their keys is filtering the rows. *)
Lemma delete_from_where_from {R K V} (p : K -> bool) (key : R -> K)
    (val : R -> V) (i : nat) (rows : list R) :
  Np.delete_from i (map val rows) (Np.where_from p i (map key rows)) =
  map val (List.filter (fun r => negb (p (key r))) rows).
Proof.
  revert i. induction rows as [|r rows IH]; intros i; simpl; [reflexivity|].
  destruct (p (key r)) eqn:Hp; simpl.
  - rewrite Nat.eqb_refl. simpl. rewrite delete_from_lt by lia. apply IH.
  - rewrite existsb_where_from. f_equal. apply IH.
Qed.

Lemma delete_where {R K V} (p : K -> bool) (key : R -> K) (val : R -> V)
    (rows : list R) :
  Np.delete (map val rows) (Np.where_ p (map key rows)) =
  Ok (map val (List.filter (fun r => negb (p (key r))) rows)).
Proof.
  unfold Np.delete, Np.where_.
  replace (forallb _ _) with true.
  - rewrite delete_from_where_from. reflexivity.
  - symmetry. apply forallb_forall. intros j Hj.
    apply list_elem_of_In, where_from_ge in Hj.
    rewrite !length_map in *. apply Nat.ltb_lt. lia.
Qed.

Lemma filter_nil {A} (p : A -> bool) (l : list A) :
  (forall x, x ∈ l -> p x = false) -> List.filter p l = [].
Proof.
  induction l as [|x l IH]; intros H; simpl; [reflexivity|].
  rewrite (H x) by (by left). apply IH. intros z Hz. apply H. by right.
Qed.

Lemma where_nil_filter {R K} (p : K -> bool) (key : R -> K) (rows : list R) :
  Np.where_ p (map key rows) = [] ->
  List.filter (fun r => negb (p (key r))) rows = rows.
Proof.
  unfold Np.where_. intros H.
  pose proof (where_from_head p 0 (map key rows)) as Hall.
  rewrite H in Hall. clear H.
  induction rows as [|r rows IH]; simpl in *; [reflexivity|].
  rewrite (Hall (key r)) by (by left). simpl. f_equal.
  apply IH. intros x Hx. apply Hall. by right.
Qed.

Lemma where_from_nil {A} (p : A -> bool) (i : nat) (l : list A) :
  (forall x, x ∈ l -> p x = false) -> Np.where_from p i l = [].
Proof.
  revert i. induction l as [|x l IH]; intros i H; simpl; [reflexivity|].
  rewrite (H x) by (by left). apply IH. intros z Hz. apply H. by right.
Qed.

(** ** The count of valid rows *)

Lemma valid_count_spec (detections : list detection) :
  valid_count detections <= length detections /\
  (forall i d, i < valid_count detections -> detections !! i = Some d ->
               is_padding d = false) /\
  (forall d, detections !! valid_count detections = Some d ->
             is_padding d = true).
Proof.
  unfold valid_count, Np.where_.
  pose proof (where_from_head is_padding 0 detections) as H.
  destruct (Np.where_from is_padding 0 detections) as [|j ix].
  - repeat split; [lia| |].
    + intros i d _ Hd. apply H. eapply list_elem_of_lookup_2, Hd.
    + intros d Hd. apply lookup_lt_Some in Hd. lia.
  - destruct H as (k & x & -> & Hx & Hpx & Hbefore). simpl.
    repeat split.
    + apply lookup_lt_Some in Hx. lia.
    + intros i d Hi Hd. eapply Hbefore; eassumption.
    + intros d Hd. congruence.
Qed.

Lemma valid_count_take (detections : list detection) :
  valid_count (take (valid_count detections) detections) =
  valid_count detections.
Proof.
  destruct (valid_count_spec detections) as (Hle & Hvalid & _).
  unfold valid_count at 1, Np.where_.
  rewrite where_from_nil.
  - rewrite length_take. lia.
  - intros d (i & Hi)%list_elem_of_lookup_1.
    apply lookup_take_Some in Hi as [Hd Hlt]. eapply Hvalid; eassumption.
Qed.

Section UnmoldFacts.

Context {U : Utils}.

(** ** Selection of the class channel *)

Lemma select_masks_take (mrcnn_mask : list (list raw_mask)) (N : nat)
    (cids : list Z) :
  select_masks (take N mrcnn_mask) N cids = select_masks mrcnn_mask N cids.
Proof.
  unfold select_masks. apply mapM_ext_in. intros [i c] Hic. simpl.
  apply elem_of_zip_l, elem_of_seq in Hic.
  unfold getitem. rewrite lookup_take_lt by lia. reflexivity.
Qed.

Lemma select_masks_Ok (mrcnn_mask : list (list raw_mask)) (N : nat)
    (cids : list Z) (selected : list raw_mask) :
  length cids = N ->
  select_masks mrcnn_mask N cids = Ok selected ->
  length selected = N /\
  forall i c, cids !! i = Some c ->
    exists row k m,
      mrcnn_mask !! i = Some row /\ Np.index (length row) c = Ok k /\
      row !! k = Some m /\ selected !! i = Some m.
Proof.
  intros Hlen Hsel. unfold select_masks in Hsel. apply mapM_Ok in Hsel.
  split.
  - apply Forall2_length in Hsel. rewrite length_zip, length_seq in Hsel. lia.
  - intros i c Hc.
    assert (Hi : i < N) by (apply lookup_lt_Some in Hc; lia).
    assert (Hz : zip (seq 0 N) cids !! i = Some (i, c)).
    { apply lookup_zip_with_Some. exists i, c.
      repeat split; [|assumption]. by apply lookup_seq_lt. }
    destruct (Forall2_lookup_l _ _ _ _ _ Hsel Hz) as (m & Hm & Hf).
    simpl in Hf. unfold mbind, result_bind in Hf.
    destruct (getitem mrcnn_mask i) as [row|] eqn:Hrow; [|discriminate].
    destruct (Np.index (length row) c) as [k|] eqn:Hk; [|discriminate].
    exists row, k, m. repeat split; try assumption; by apply getitem_Ok.
Qed.

(** A fitting pair of raw outputs always selects. *)
Lemma select_masks_fit (detections : list detection)
    (mrcnn_mask : list (list raw_mask)) :
  raw_outputs_fit detections mrcnn_mask ->
  exists selected,
    select_masks mrcnn_mask (valid_count detections)
      (map (fun d => Np.astype_int32 (det_class_id d))
           (take (valid_count detections) detections)) = Ok selected.
Proof.
  intros [Hlen Hfit].
  destruct (valid_count_spec detections) as (Hle & _ & _).
  set (N := valid_count detections) in *.
  set (cids := map _ _).
  assert (Hall : Forall (fun ic : nat * Z =>
            exists m, (row ← getitem mrcnn_mask ic.1;
                       c ← Np.index (length row) ic.2;
                       getitem row c) = Ok m) (zip (seq 0 N) cids)).
  { apply Forall_forall. intros [i c] Hic. simpl.
    apply list_elem_of_lookup_1 in Hic as [j Hj].
    apply lookup_zip_with_Some in Hj as (i' & c' & [= <- <-] & Hi & Hc).
    apply lookup_seq in Hi as [-> Hj]. simpl in *.
    unfold cids in Hc. rewrite list_lookup_fmap in Hc.
    destruct (take N detections !! j) as [d|] eqn:Hd; [|discriminate].
    injection Hc as <-. apply lookup_take_Some in Hd as [Hd _].
    destruct (lookup_lt_is_Some_2 mrcnn_mask j) as [row Hrow]; [lia|].
    specialize (Hfit j d row Hd Hrow).
    rewrite (proj2 (getitem_Ok _ _ _) Hrow).
    unfold mbind, result_bind, Np.index.
    replace ((0 <=? _) && _)%Z with true
      by (symmetry; apply andb_true_iff; split; [apply Z.leb_le|apply Z.ltb_lt]; lia).
    destruct (lookup_lt_is_Some_2 row (Z.to_nat (Np.astype_int32 (det_class_id d))))
      as [m Hm]; [lia|].
    exists m. unfold getitem. rewrite Hm. reflexivity. }
  unfold select_masks.
  induction (zip (seq 0 N) cids) as [|x l IH]; simpl.
  - eexists. reflexivity.
  - inversion Hall as [|? ? [m Hm] Hl]; subst.
    destruct (IH Hl) as [k Hk].
    exists (m :: k). unfold mbind, result_bind, mret, result_ret in *.
    rewrite Hm, Hk. reflexivity.
Qed.

End UnmoldFacts.

Section AssemblyFacts.

Context {U : Utils}.

Implicit Types (detections : list detection)
  (mrcnn_mask : list (list raw_mask)) (window : box)
  (original_image_shape image_shape : list nat).

(** ** The four parallel arrays are the kept rows *)

Lemma unmold_rows_eq detections mrcnn_mask original_image_shape image_shape
    window :
  unmold_rows detections mrcnn_mask original_image_shape image_shape window =
  selected ← select_masks mrcnn_mask (valid_count detections)
               (map (fun d => Np.astype_int32 (det_class_id d))
                    (take (valid_count detections) detections));
  let rows := kept_rows detections selected original_image_shape image_shape
                        window in
  Ok (map row_box rows, map row_class_id rows, map row_score rows,
      map row_mask rows, length rows).
Proof.
  unfold unmold_rows.
  destruct (valid_count_spec detections) as (Hle & _ & _).
  set (N := valid_count detections) in *.
  set (pre := take N detections).
  assert (Hpre : length pre = N) by (unfold pre; rewrite length_take; lia).
  destruct (select_masks _ _ _) as [selected|e] eqn:Hsel; [|reflexivity].
  apply select_masks_Ok in Hsel as [Hlen _]; [|by rewrite length_map].
  rewrite !bind_Ok. unfold kept_rows. fold N. fold pre.
  set (w := norm_boxes window (take 2 image_shape)).
  set (rows := map (unmolded_row w original_image_shape) (zip pre selected)).
  assert (Hb : map (unmold_box w original_image_shape) (map det_box pre)
               = map row_box rows).
  { unfold rows. rewrite !map_map. rewrite <- (fst_zip pre selected) at 1 by lia.
    rewrite map_map. reflexivity. }
  assert (Hc : map (fun d => Np.astype_int32 (det_class_id d)) pre
               = map row_class_id rows).
  { unfold rows. rewrite map_map. rewrite <- (fst_zip pre selected) at 1 by lia.
    rewrite map_map. reflexivity. }
  assert (Hs : map det_score pre = map row_score rows).
  { unfold rows. rewrite map_map. rewrite <- (fst_zip pre selected) at 1 by lia.
    rewrite map_map. reflexivity. }
  assert (Hm : selected = map row_mask rows).
  { unfold rows. rewrite map_map. rewrite <- (snd_zip pre selected) at 1 by lia.
    reflexivity. }
  set (kept := List.filter _ rows).
  rewrite Hb, Hc, Hs, Hm.
  destruct (Np.where_ zero_area (map row_box rows)) as [|j ix] eqn:Hw.
  - simpl. apply where_nil_filter in Hw. unfold kept. rewrite Hw.
    do 2 f_equal. unfold rows. rewrite length_map, length_zip. lia.
  - rewrite <- Hw. rewrite !delete_where. simpl. fold kept.
    rewrite length_map, Hw. reflexivity.
Qed.

Lemma full_masks_loop {R} (mask_of : R -> raw_mask) (box_of : R -> box)
    (rows : list R) original_image_shape :
  mapM (fun i =>
          m ← getitem (map mask_of rows) i;
          b ← getitem (map box_of rows) i;
          Ok (unmold_mask m b original_image_shape))
       (seq 0 (length rows)) =
  Ok (map (fun r => unmold_mask (mask_of r) (box_of r) original_image_shape)
          rows).
Proof.
  apply mapM_Ok, Forall2_same_length_lookup_2.
  - rewrite length_seq, length_map. reflexivity.
  - intros i j y Hj Hy. apply lookup_seq in Hj as [-> Hi]. simpl.
    rewrite list_lookup_fmap in Hy.
    destruct (rows !! i) as [r|] eqn:Hr; [|discriminate].
    injection Hy as <-.
    rewrite (proj2 (getitem_Ok (map mask_of rows) i (mask_of r)))
      by (by rewrite list_lookup_fmap, Hr).
    rewrite (proj2 (getitem_Ok (map box_of rows) i (box_of r)))
      by (by rewrite list_lookup_fmap, Hr).
    reflexivity.
Qed.

(** Whatever the stacking returns, its planes are the resized masks of the
    rows, in order. *)
Lemma stack_full_masks_planes {R} (mask_of : R -> raw_mask)
    (box_of : R -> box) (rows : list R) original_image_shape stack :
  stack_full_masks (map mask_of rows) (map box_of rows) (length rows)
                   original_image_shape = Ok stack ->
  stack_planes stack =
  map (fun r => unmold_mask (mask_of r) (box_of r) original_image_shape) rows.
Proof.
  unfold stack_full_masks. rewrite full_masks_loop, bind_Ok.
  destruct (map _ rows) as [|m ms] eqn:Hp.
  - intros [= <-]. reflexivity.
  - unfold np_stack_last. destruct (forallb _ ms); [|discriminate].
    intros [= <-]. reflexivity.
Qed.

Lemma stack_full_masks_rows {R} (mask_of : R -> raw_mask) (box_of : R -> box)
    (rows : list R) original_image_shape :
  unmold_mask_on_canvas ->
  stack_full_masks (map mask_of rows) (map box_of rows) (length rows)
                   original_image_shape =
  Ok (MaskStack (take 2 original_image_shape ++ [length rows])
        (map (fun r => unmold_mask (mask_of r) (box_of r)
                                   original_image_shape) rows)).
Proof.
  intros Hcanvas. unfold stack_full_masks.
  rewrite full_masks_loop, bind_Ok.
  set (planes := map (fun r => unmold_mask (mask_of r) (box_of r)
                                         original_image_shape) rows).
  destruct planes as [|m ms] eqn:Hp.
  - destruct rows; [reflexivity|discriminate].
  - unfold np_stack_last.
    assert (Hall : Forall (fun m' => mask_shape m' = take 2 original_image_shape)
                          (m :: ms)).
    { rewrite <- Hp. unfold planes. apply Forall_forall.
      intros x (r & -> & _)%list_elem_of_fmap. apply Hcanvas. }
    inversion Hall as [|? ? Hm Hms]; subst.
    replace (forallb _ ms) with true.
    + rewrite Hm. do 3 f_equal.
      rewrite <- Hp. unfold planes. rewrite length_map. reflexivity.
    + symmetry. apply forallb_forall. intros x Hx.
      apply bool_decide_eq_true. rewrite Hm.
      rewrite Forall_forall in Hms. apply Hms. by apply list_elem_of_In.
Qed.

(** A successful [unmold_detections] returns the kept rows. *)
Lemma unmold_detections_Ok detections mrcnn_mask original_image_shape
    image_shape window boxes cids scs stack :
  unmold_detections detections mrcnn_mask original_image_shape image_shape
                    window = Ok (boxes, cids, scs, stack) ->
  exists selected,
    select_masks mrcnn_mask (valid_count detections)
      (map (fun d => Np.astype_int32 (det_class_id d))
           (take (valid_count detections) detections)) = Ok selected /\
    let rows := kept_rows detections selected original_image_shape
                          image_shape window in
    boxes = map row_box rows /\ cids = map row_class_id rows /\
    scs = map row_score rows /\
    stack_planes stack =
    map (fun r => unmold_mask (row_mask r) (row_box r) original_image_shape)
        rows.
Proof.
  unfold unmold_detections. rewrite unmold_rows_eq.
  destruct (select_masks _ _ _) as [selected|e]; [|discriminate].
  rewrite !bind_Ok. cbv zeta.
  destruct (stack_full_masks _ _ _ _) as [st|e] eqn:Hst; [|discriminate].
  rewrite bind_Ok. intros [= <- <- <- <-].
  exists selected. split; [reflexivity|]. repeat split.
  by apply stack_full_masks_planes in Hst.
Qed.

(** [unmold_detections], when [unmold_mask] fills a canvas of the original
    extents, fails only in the selection of the class channels. *)
Lemma unmold_detections_eq detections mrcnn_mask original_image_shape
    image_shape window :
  unmold_mask_on_canvas ->
  unmold_detections detections mrcnn_mask original_image_shape image_shape
                    window =
  selected ← select_masks mrcnn_mask (valid_count detections)
               (map (fun d => Np.astype_int32 (det_class_id d))
                    (take (valid_count detections) detections));
  let rows := kept_rows detections selected original_image_shape image_shape
                        window in
  Ok (map row_box rows, map row_class_id rows, map row_score rows,
      MaskStack (take 2 original_image_shape ++ [length rows])
        (map (fun r => unmold_mask (row_mask r) (row_box r)
                                   original_image_shape) rows)).
Proof.
  intros Hcanvas. unfold unmold_detections. rewrite unmold_rows_eq.
  destruct (select_masks _ _ _) as [selected|e]; [|reflexivity].
  rewrite !bind_Ok. cbv zeta.
  rewrite stack_full_masks_rows by assumption. reflexivity.
Qed.

Lemma unmold_detections_take detections mrcnn_mask original_image_shape
    image_shape window :
  unmold_detections detections mrcnn_mask original_image_shape image_shape
                    window =
  unmold_detections (take (valid_count detections) detections)
                    (take (valid_count detections) mrcnn_mask)
                    original_image_shape image_shape window.
Proof.
  unfold unmold_detections. rewrite !unmold_rows_eq.
  unfold kept_rows. rewrite valid_count_take, take_take, Nat.min_id.
  rewrite select_masks_take. reflexivity.
Qed.

Lemma valid_count_app (pre : list detection) (z : detection)
    (rest : list detection) :
  Forall (fun d => is_padding d = false) pre -> is_padding z = true ->
  valid_count (pre ++ z :: rest) = length pre.
Proof.
  intros Hpre Hz.
  destruct (valid_count_spec (pre ++ z :: rest)) as (Hle & Hvalid & Hpad).
  destruct (Nat.lt_trichotomy (valid_count (pre ++ z :: rest)) (length pre))
    as [Hlt|[Heq|Hgt]]; [|assumption|].
  - destruct (lookup_lt_is_Some_2 pre _ Hlt) as [d Hd].
    rewrite Forall_forall in Hpre.
    assert (is_padding d = false)
      by (apply Hpre; eapply list_elem_of_lookup_2, Hd).
    assert (is_padding d = true)
      by (apply Hpad; rewrite lookup_app_l by assumption; exact Hd).
    congruence.
  - assert (is_padding z = false); [|congruence].
    apply (Hvalid (length pre)); [assumption|].
    rewrite lookup_app_r by lia. by rewrite Nat.sub_diag.
Qed.

Lemma kept_rows_lookup detections selected original_image_shape image_shape
    window (r : box * Z * Q * raw_mask) :
  length selected = valid_count detections ->
  r ∈ kept_rows detections selected original_image_shape image_shape window ->
  exists i d m,
    i < valid_count detections /\ detections !! i = Some d /\
    selected !! i = Some m /\
    r = unmolded_row (norm_boxes window (take 2 image_shape))
                     original_image_shape (d, m) /\
    zero_area (row_box r) = false.
Proof.
  intros Hlen Hr. unfold kept_rows in Hr.
  apply list_elem_of_In, filter_In in Hr as [Hr Hkeep].
  apply list_elem_of_In, list_elem_of_fmap in Hr as ([d m] & -> & Hdm).
  apply list_elem_of_lookup_1 in Hdm as [i Hi].
  apply lookup_zip_with_Some in Hi as (d' & m' & [= <- <-] & Hd & Hm).
  apply lookup_take_Some in Hd as [Hd Hi].
  exists i, d, m. repeat split; try assumption.
  by apply negb_true_iff.
Qed.

End AssemblyFacts.

(** ** The kept rows, column by column *)

Lemma filter_map {A B} (p : B -> bool) (f : A -> B) (l : list A) :
  List.filter p (map f l) = map f (List.filter (fun x => p (f x)) l).
Proof.
  induction l as [|x l IH]; simpl; [reflexivity|].
  destruct (p (f x)); simpl; by rewrite IH.
Qed.

Lemma filter_fst_zip {A B} (p : A -> bool) (l : list A) (k : list B) :
  length l <= length k ->
  map fst (List.filter (fun z => p z.1) (zip l k)) = List.filter p l.
Proof.
  revert k. induction l as [|x l IH]; intros [|y k] Hlen; simpl in *;
    try reflexivity; try lia.
  destruct (p x); simpl; rewrite IH by lia; reflexivity.
Qed.

Section RowFacts.

Context {U : Utils}.

(** The columns of the kept rows are columns of the first [N] detections
    whose mapped box has a positive area. *)
Lemma kept_rows_columns (detections : list detection)
    (selected : list raw_mask) (original_image_shape image_shape : list nat)
    (window : box) :
  length selected = valid_count detections ->
  let to_pixels := fun d : detection =>
    unmold_box (norm_boxes window (take 2 image_shape)) original_image_shape
               (det_box d) in
  let kept := List.filter (fun d => negb (zero_area (to_pixels d)))
                          (take (valid_count detections) detections) in
  let rows := kept_rows detections selected original_image_shape image_shape
                        window in
  map row_box rows = map to_pixels kept /\
  map row_class_id rows =
    map (fun d => Np.astype_int32 (det_class_id d)) kept /\
  map row_score rows = map det_score kept /\
  length rows = length kept.
Proof.
  intros Hlen to_pixels kept rows.
  destruct (valid_count_spec detections) as (Hle & _ & _).
  assert (Hpre : length (take (valid_count detections) detections)
                 <= length selected) by (rewrite length_take; lia).
  assert (Hrows : rows =
            map (unmolded_row (norm_boxes window (take 2 image_shape))
                              original_image_shape)
                (List.filter (fun z : detection * raw_mask =>
                                negb (zero_area (to_pixels z.1)))
                   (zip (take (valid_count detections) detections)
                        selected))).
  { unfold rows, kept_rows. by rewrite filter_map. }
  assert (Hkept : kept =
            map fst (List.filter (fun z : detection * raw_mask =>
                                    negb (zero_area (to_pixels z.1)))
                       (zip (take (valid_count detections) detections)
                            selected))).
  { unfold kept.
    by rewrite (filter_fst_zip (fun d => negb (zero_area (to_pixels d)))). }
  rewrite Hrows, Hkept, !map_map, !length_map. by repeat split.
Qed.

Lemma unmold_box_formula (nw : box) (original_image_shape : list nat)
    (b : box) :
  unmold_box nw original_image_shape b =
  denorm_boxes
    (Box ((y1 b - y1 nw) / (y2 nw - y1 nw))%Q
         ((x1 b - x1 nw) / (x2 nw - x1 nw))%Q
         ((y2 b - y1 nw) / (y2 nw - y1 nw))%Q
         ((x2 b - x1 nw) / (x2 nw - x1 nw))%Q)
    (take 2 original_image_shape).
Proof. destruct nw. reflexivity. Qed.

End RowFacts.

(** ** Result assembly: the claims *)

Section AssemblyClaims.

Context {U : Utils}.

Implicit Types (detections : list detection)
  (mrcnn_mask : list (list raw_mask)) (window : box)
  (original_image_shape image_shape : list nat).

(** C3: [unmold_detections] takes [N] to be the index of the first row whose
    class id equals 0, or the row count when there is none, and works on the
    first [N] rows of the detections and of the masks, and on these only.
    The result is that of the truncated arrays, and the rows after the first
    zero-class row do not influence it, whatever their class id.  For a
    window with an extent, the boxes, class ids and scores returned are
    those of the rows among the first [N] whose mapped box has a positive
    area, all of them and in order, with one mask plane each.  And the first
    [N] rows are enough for a result: when the raw outputs fit together and
    [unmold_mask] fills a canvas of the original extents, there is one. *)
Theorem unmold_detections_truncates detections mrcnn_mask
    original_image_shape image_shape window :
  let N := valid_count detections in
  let to_pixels := fun d : detection =>
    unmold_box (norm_boxes window (take 2 image_shape)) original_image_shape
               (det_box d) in
  N <= length detections /\
  (forall i d, i < N -> detections !! i = Some d ->
               ~ (det_class_id d == 0)%Q) /\
  (forall d, detections !! N = Some d -> (det_class_id d == 0)%Q) /\
  ((forall d, d ∈ detections -> ~ (det_class_id d == 0)%Q) ->
   N = length detections) /\
  unmold_detections detections mrcnn_mask original_image_shape image_shape
                    window =
  unmold_detections (take N detections) (take N mrcnn_mask)
                    original_image_shape image_shape window /\
  (forall pre z rest rest',
     detections = pre ++ z :: rest ->
     Forall (fun d => ~ (det_class_id d == 0)%Q) pre ->
     (det_class_id z == 0)%Q ->
     N = length pre /\
     unmold_detections (pre ++ z :: rest') mrcnn_mask original_image_shape
                       image_shape window =
     unmold_detections detections mrcnn_mask original_image_shape
                       image_shape window) /\
  (window_has_extent (norm_boxes window (take 2 image_shape)) ->
   forall boxes cids scs stack,
     unmold_detections detections mrcnn_mask original_image_shape
                       image_shape window = Ok (boxes, cids, scs, stack) ->
     let kept :=
       List.filter (fun d => negb (Qle_bool (box_area (to_pixels d)) 0))
                   (take N detections) in
     boxes = map to_pixels kept /\
     cids = map (fun d => Np.astype_int32 (det_class_id d)) kept /\
     scs = map det_score kept /\
     length (stack_planes stack) = length kept) /\
  (unmold_mask_on_canvas -> raw_outputs_fit detections mrcnn_mask ->
   exists r,
     unmold_detections detections mrcnn_mask original_image_shape
                       image_shape window = Ok r).
Proof.
  intros N to_pixels.
  destruct (valid_count_spec detections) as (Hle & Hvalid & Hpad).
  fold N in Hle, Hvalid, Hpad.
  split; [assumption|]. split.
  { intros i d Hi Hd Hz. apply Qeq_bool_iff in Hz.
    specialize (Hvalid i d Hi Hd). unfold is_padding in Hvalid. congruence. }
  split.
  { intros d Hd. apply Qeq_bool_iff. by apply Hpad. }
  split.
  { intros Hnone. destruct (decide (N < length detections)) as [Hlt|]; [|lia].
    destruct (lookup_lt_is_Some_2 detections N Hlt) as [d Hd].
    exfalso. apply (Hnone d); [eapply list_elem_of_lookup_2, Hd|].
    apply Qeq_bool_iff. by apply Hpad. }
  split; [apply unmold_detections_take|].
  split.
  { intros pre z rest rest' -> Hpre Hz.
    assert (Hpre' : Forall (fun d => is_padding d = false) pre).
    { eapply Forall_impl; [exact Hpre|]. intros d Hd. simpl in Hd.
      apply not_true_is_false. intros Hp. apply Hd. by apply Qeq_bool_iff. }
    assert (Hz' : is_padding z = true) by (by apply Qeq_bool_iff).
    split; [by apply valid_count_app|].
    rewrite (unmold_detections_take (pre ++ z :: rest')).
    rewrite (unmold_detections_take (pre ++ z :: rest)).
    rewrite !valid_count_app by assumption.
    rewrite !take_app_length. reflexivity. }
  split.
  { intros _ boxes cids scs stack Hok.
    destruct (unmold_detections_Ok _ _ _ _ _ _ _ _ _ Hok)
      as (selected & Hsel & -> & -> & -> & Hp).
    apply select_masks_Ok in Hsel as [Hlen _];
      [|rewrite length_map, length_take; lia].
    destruct (kept_rows_columns detections selected original_image_shape
                image_shape window Hlen) as (Hb & Hc & Hs & Hl).
    cbv zeta in *. rewrite Hp, length_map. by repeat split. }
  intros Hcanvas Hfit.
  rewrite (unmold_detections_eq _ _ _ _ _ Hcanvas).
  destruct (select_masks_fit _ _ Hfit) as [selected ->].
  rewrite bind_Ok. eauto.
Qed.

(** C4: for a window with an extent, after the boxes are mapped to pixels
    of the original image, a row is dropped exactly when the area
    [(y2 - y1) * (x2 - x1)] of its box is zero or negative, and it is dropped
    from the boxes, class ids, scores and masks alike: the four results are
    the same rows, in order.  A box with [y1 == y2] is never in the
    result. *)
Theorem unmold_detections_drops_zero_area detections mrcnn_mask
    original_image_shape image_shape window boxes cids scs stack :
  window_has_extent (norm_boxes window (take 2 image_shape)) ->
  unmold_detections detections mrcnn_mask original_image_shape image_shape
                    window = Ok (boxes, cids, scs, stack) ->
  exists selected,
    let candidates :=
      map (unmolded_row (norm_boxes window (take 2 image_shape))
                        original_image_shape)
          (zip (take (valid_count detections) detections) selected) in
    let kept :=
      List.filter (fun r => negb (Qle_bool (box_area (row_box r)) 0))
                  candidates in
    select_masks mrcnn_mask (valid_count detections)
      (map (fun d => Np.astype_int32 (det_class_id d))
           (take (valid_count detections) detections)) = Ok selected /\
    length candidates = valid_count detections /\
    boxes = map row_box kept /\
    cids = map row_class_id kept /\
    scs = map row_score kept /\
    stack_planes stack =
      map (fun r => unmold_mask (row_mask r) (row_box r)
                                original_image_shape) kept /\
    (forall r, r ∈ candidates ->
               (r ∈ kept <-> ~ (box_area (row_box r) <= 0)%Q)) /\
    (forall r, r ∈ candidates ->
               (y1 (row_box r) == y2 (row_box r))%Q -> r ∉ kept) /\
    (forall b, b ∈ boxes -> (0 < box_area b)%Q /\ ~ (y1 b == y2 b)%Q).
Proof.
  intros _ Hok.
  destruct (unmold_detections_Ok _ _ _ _ _ _ _ _ _ Hok)
    as (selected & Hsel & Hb & Hc & Hs & Hp).
  exists selected. cbv zeta. split; [exact Hsel|].
  apply select_masks_Ok in Hsel as [Hlen _]; [|rewrite length_map, length_take;
    pose proof (valid_count_spec detections); lia].
  assert (Hflat : forall b, (y1 b == y2 b)%Q -> (box_area b <= 0)%Q).
  { intros b Hy.
    assert (Hz : (box_area b == 0)%Q) by (unfold box_area; rewrite Hy; ring).
    rewrite Hz. apply Qle_refl. }
  assert (Hin : forall (r : box * Z * Q * raw_mask) cand,
            r ∈ List.filter (fun r => negb (Qle_bool (box_area (row_box r)) 0))
                  cand <->
            r ∈ cand /\ ~ (box_area (row_box r) <= 0)%Q).
  { intros r cand. rewrite !list_elem_of_In, filter_In.
    rewrite negb_true_iff, <- not_true_iff_false, Qle_bool_iff.
    reflexivity. }
  split.
  { rewrite length_map, length_zip, length_take.
    pose proof (valid_count_spec detections). lia. }
  do 4 (split; [assumption|]).
  split; [|split].
  - intros r Hr. rewrite Hin. tauto.
  - intros r Hr Hy Hk. apply Hin in Hk as [_ Hk]. apply Hk, Hflat, Hy.
  - intros b Hbx. rewrite Hb in Hbx.
    apply list_elem_of_fmap in Hbx as (r & -> & Hr).
    apply Hin in Hr as [_ Hr]. split.
    + by apply Qnot_le_lt.
    + intros Hy. apply Hr, Hflat, Hy.
Qed.

(** C6: for every row [i] among the first [N], the mask selected for the row
    is the channel of [mrcnn_mask[i]] that the row's class id indexes; and
    each row of the result is made from one such row [i]: its box is the
    mapped box of that row, its class id is the class id of that row, and
    its mask is [unmold_mask] applied to that channel of [mrcnn_mask[i]]
    (the channel of that number when the class id is not negative). *)
Theorem kept_mask_is_class_channel detections mrcnn_mask
    original_image_shape image_shape window boxes cids scs stack :
  unmold_detections detections mrcnn_mask original_image_shape image_shape
                    window = Ok (boxes, cids, scs, stack) ->
  (exists selected,
     select_masks mrcnn_mask (valid_count detections)
       (map (fun d => Np.astype_int32 (det_class_id d))
            (take (valid_count detections) detections)) = Ok selected /\
     forall i d, i < valid_count detections -> detections !! i = Some d ->
       exists row k m,
         mrcnn_mask !! i = Some row /\
         Np.index (length row) (Np.astype_int32 (det_class_id d)) = Ok k /\
         row !! k = Some m /\ selected !! i = Some m) /\
  length cids = length boxes /\
  length (stack_planes stack) = length boxes /\
  forall j b c plane,
    boxes !! j = Some b -> cids !! j = Some c ->
    stack_planes stack !! j = Some plane ->
    exists i d row k m,
      i < valid_count detections /\
      detections !! i = Some d /\
      mrcnn_mask !! i = Some row /\
      c = Np.astype_int32 (det_class_id d) /\
      Np.index (length row) c = Ok k /\
      ((0 <= c)%Z -> k = Z.to_nat c) /\
      row !! k = Some m /\
      b = unmold_box (norm_boxes window (take 2 image_shape))
                     original_image_shape (det_box d) /\
      plane = unmold_mask m b original_image_shape.
Proof.
  intros Hok.
  destruct (unmold_detections_Ok _ _ _ _ _ _ _ _ _ Hok)
    as (selected & Hsel & Hb & Hc & Hs & Hp).
  cbv zeta in *. set (rows := kept_rows _ _ _ _ _) in *.
  assert (Hcl : length (map (fun d => Np.astype_int32 (det_class_id d))
                  (take (valid_count detections) detections))
                = valid_count detections).
  { rewrite length_map, length_take.
    pose proof (valid_count_spec detections). lia. }
  destruct (select_masks_Ok _ _ _ _ Hcl Hsel) as [Hlen Hchan].
  split.
  { exists selected. split; [assumption|]. intros i d Hi Hd.
    apply Hchan.
    rewrite list_lookup_fmap, lookup_take_lt, Hd by assumption.
    reflexivity. }
  subst boxes cids scs. rewrite Hp, !length_map.
  do 2 (split; [reflexivity|]).
  intros j b c plane Hjb Hjc Hjp.
  rewrite list_lookup_fmap in Hjb. rewrite list_lookup_fmap in Hjc.
  rewrite list_lookup_fmap in Hjp.
  destruct (rows !! j) as [r|] eqn:Hr; [|discriminate].
  simpl in Hjb, Hjc, Hjp. injection Hjb as <-. injection Hjc as <-.
  injection Hjp as <-.
  apply list_elem_of_lookup_2 in Hr.
  apply kept_rows_lookup in Hr as (i & d & m & Hi & Hd & Hm & -> & _);
    [|assumption].
  destruct (Hchan i (Np.astype_int32 (det_class_id d)))
    as (row & k & m' & Hrow & Hk & Hm' & Hsm).
  { rewrite list_lookup_fmap, lookup_take_lt, Hd by assumption. reflexivity. }
  assert (m' = m) by congruence. subst m'.
  exists i, d, row, k, m. repeat split; try assumption.
  intros Hc0. unfold Np.index in Hk.
  destruct (_ && _)%Z eqn:Hrange.
  - injection Hk as <-. reflexivity.
  - apply andb_false_iff in Hrange as [Hrange|Hrange].
    + apply Z.leb_gt in Hrange. unfold row_class_id, unmolded_row in Hc0.
      simpl in Hc0. lia.
    + destruct (_ && _)%Z eqn:Hneg; [|discriminate].
      apply andb_true_iff in Hneg as [_ Hneg]. apply Z.ltb_lt in Hneg.
      unfold row_class_id, unmolded_row in Hc0. simpl in Hc0. lia.
Qed.

(** C2: when the raw outputs fit together, the window has an extent and no
    row among the first [N] has a box of positive area, the assembly does
    not raise: it returns no boxes, no class ids, no scores and a mask stack
    of shape [(H, W, 0)] for an original image of shape [(H, W, ...)]. *)
Theorem empty_detections_are_well_formed detections mrcnn_mask
    (H W : nat) (channels : list nat) image_shape window :
  raw_outputs_fit detections mrcnn_mask ->
  window_has_extent (norm_boxes window (take 2 image_shape)) ->
  (forall d, d ∈ take (valid_count detections) detections ->
     (box_area (unmold_box (norm_boxes window (take 2 image_shape))
                           (H :: W :: channels) (det_box d)) <= 0)%Q) ->
  unmold_detections detections mrcnn_mask (H :: W :: channels) image_shape
                    window = Ok ([], [], [], MaskStack [H; W; 0] []).
Proof.
  intros Hfit _ Hflat.
  destruct (select_masks_fit _ _ Hfit) as [selected Hsel].
  unfold unmold_detections. rewrite unmold_rows_eq, Hsel, bind_Ok.
  cbv zeta.
  assert (Hrows : kept_rows detections selected (H :: W :: channels)
                            image_shape window = []).
  { unfold kept_rows. apply filter_nil.
    intros r ([d m] & -> & Hdm)%list_elem_of_fmap.
    apply elem_of_zip_l in Hdm. apply negb_false_iff.
    unfold zero_area, row_box, unmolded_row. simpl.
    apply Qle_bool_iff, Hflat, Hdm. }
  rewrite Hrows. reflexivity.
Qed.

(** C5, as the code has it: the window, which arrives in pixels of the
    molded image, is normalised against the molded image shape.  For a
    normalised window with an extent, the boxes of the result are, in order,
    the boxes of the first [N] detections, each minus the top-left corner of
    the normalised window, divided by its height and width and denormalised
    against the original image shape, less those of zero or negative area:
    every detection box is mapped in this way, and a mapped box of positive
    area is in the result. *)
Theorem unmold_box_uses_normalised_window detections mrcnn_mask
    original_image_shape image_shape window boxes cids scs stack :
  window_has_extent (norm_boxes window (take 2 image_shape)) ->
  unmold_detections detections mrcnn_mask original_image_shape image_shape
                    window = Ok (boxes, cids, scs, stack) ->
  let nw := norm_boxes window (take 2 image_shape) in
  let to_pixels := fun b : box =>
    denorm_boxes
      (Box ((y1 b - y1 nw) / (y2 nw - y1 nw))%Q
           ((x1 b - x1 nw) / (x2 nw - x1 nw))%Q
           ((y2 b - y1 nw) / (y2 nw - y1 nw))%Q
           ((x2 b - x1 nw) / (x2 nw - x1 nw))%Q)
      (take 2 original_image_shape) in
  boxes =
  List.filter (fun b => negb (Qle_bool (box_area b) 0))
    (map (fun d => to_pixels (det_box d))
         (take (valid_count detections) detections)) /\
  (forall i d, i < valid_count detections -> detections !! i = Some d ->
     (0 < box_area (to_pixels (det_box d)))%Q ->
     to_pixels (det_box d) ∈ boxes) /\
  (forall b, b ∈ boxes ->
     exists i d, i < valid_count detections /\ detections !! i = Some d /\
                 b = to_pixels (det_box d)).
Proof.
  intros _ Hok nw to_pixels.
  destruct (unmold_detections_Ok _ _ _ _ _ _ _ _ _ Hok)
    as (selected & Hsel & -> & _).
  destruct (valid_count_spec detections) as (Hle & _ & _).
  apply select_masks_Ok in Hsel as [Hlen _];
    [|rewrite length_map, length_take; lia].
  destruct (kept_rows_columns detections selected original_image_shape
              image_shape window Hlen) as (Hb & _).
  cbv zeta in Hb. rewrite Hb. fold nw.
  assert (Heq : List.filter (fun b => negb (Qle_bool (box_area b) 0))
                  (map (fun d => to_pixels (det_box d))
                       (take (valid_count detections) detections)) =
                map (fun d => unmold_box nw original_image_shape (det_box d))
                  (List.filter
                     (fun d => negb (zero_area
                        (unmold_box nw original_image_shape (det_box d))))
                     (take (valid_count detections) detections))).
  { rewrite filter_map.
    rewrite (List.filter_ext
               (fun d => negb (Qle_bool (box_area (to_pixels (det_box d))) 0))
               (fun d => negb (zero_area
                  (unmold_box nw original_image_shape (det_box d)))))
      by (intros d; by rewrite unmold_box_formula).
    apply map_ext. intros d. by rewrite unmold_box_formula. }
  rewrite <- Heq. split; [reflexivity|]. split.
  - intros i d Hi Hd Harea. apply list_elem_of_In, filter_In. split.
    + apply list_elem_of_In, list_elem_of_fmap. exists d. split; [reflexivity|].
      apply list_elem_of_lookup. exists i. by apply lookup_take_Some.
    + apply negb_true_iff, not_true_iff_false. intros Hle0.
      apply Qle_bool_iff in Hle0. by apply Qlt_not_le in Harea.
  - intros b Hb'. apply list_elem_of_In, filter_In in Hb' as [Hb' _].
    apply list_elem_of_In, list_elem_of_fmap in Hb' as (d & -> & Hd).
    apply list_elem_of_lookup_1 in Hd as [i Hi].
    apply lookup_take_Some in Hi as [Hd Hi]. by exists i, d.
Qed.

End AssemblyClaims.

(** ** Result assembly on the stub *)

Lemma stub_unmolds :
  unmold_detections (U := Stub.utils) Stub.stub_detections Stub.stub_masks
                    Stub.img128 Stub.img128 Stub.window128 =
  Ok (Stub.stub_output.1.1.1, Stub.stub_output.1.1.2, Stub.stub_output.1.2,
      Stub.stub_output.2).
Proof. vm_compute. reflexivity. Defined.

(** The stub's four detection rows give one result row: the degenerate row
    and the row after the padding are gone, and the mask is class channel 1
    of the first mask row. *)
Example stub_output_rows :
  Stub.stub_output.1.1.2 = [1%Z] /\
  map Stub.canvas_source (stack_planes Stub.stub_output.2) = [1] /\
  stack_shape Stub.stub_output.2 = [128; 128; 1].
Proof. repeat split. Qed.

Lemma stub_unmold_mask_on_canvas : unmold_mask_on_canvas (U := Stub.utils).
Proof. intros m b s. reflexivity. Defined.

Lemma stub_outputs_fit :
  raw_outputs_fit (U := Stub.utils) Stub.stub_detections Stub.stub_masks.
Proof.
  split; [reflexivity|].
  intros [|[|[|[|i]]]] d row Hd Hrow; simpl in Hd, Hrow; try discriminate;
    injection Hd as <-; injection Hrow as <-; vm_compute;
    (split; [discriminate | reflexivity]).
Defined.

Lemma stub_window_has_extent :
  window_has_extent
    (@norm_boxes Stub.utils Stub.window128 (take 2 Stub.img128)).
Proof. vm_compute. split; discriminate. Defined.

Lemma unmold_detections_truncates_witness :
  valid_count Stub.stub_detections = 2 /\
  unmold_detections (U := Stub.utils)
    (take 2 Stub.stub_detections ++
       Detection (Box 0 0 0 0) 0 0 :: [])
    Stub.stub_masks Stub.img128 Stub.img128 Stub.window128 =
  unmold_detections (U := Stub.utils) Stub.stub_detections Stub.stub_masks
    Stub.img128 Stub.img128 Stub.window128 /\
  Stub.stub_output.1.2 = [9 # 10]%Q /\
  exists r,
    unmold_detections (U := Stub.utils) Stub.stub_detections Stub.stub_masks
      Stub.img128 Stub.img128 Stub.window128 = Ok r.
Proof.
  destruct (unmold_detections_truncates (U := Stub.utils)
              Stub.stub_detections Stub.stub_masks Stub.img128 Stub.img128
              Stub.window128) as (_ & _ & _ & _ & _ & Hrest & Hrows & Hok).
  assert (Htail :
    valid_count Stub.stub_detections = 2 /\
    unmold_detections (U := Stub.utils)
      (take 2 Stub.stub_detections ++ Detection (Box 0 0 0 0) 0 0 :: [])
      Stub.stub_masks Stub.img128 Stub.img128 Stub.window128 =
    unmold_detections (U := Stub.utils) Stub.stub_detections Stub.stub_masks
      Stub.img128 Stub.img128 Stub.window128).
  { apply (Hrest (take 2 Stub.stub_detections) (Detection (Box 0 0 0 0) 0 0)
                 [Detection (Box 0 0 1 1) 1 (7 # 10)] []).
    - reflexivity.
    - repeat constructor; vm_compute; discriminate.
    - reflexivity. }
  destruct Htail as [HN Htail].
  split; [exact HN|]. split; [exact Htail|]. split.
  - destruct (Hrows stub_window_has_extent _ _ _ _ stub_unmolds)
      as (_ & _ & Hs & _).
    rewrite Hs. reflexivity.
  - apply Hok; [exact stub_unmold_mask_on_canvas|exact stub_outputs_fit].
Defined.

Lemma unmold_detections_drops_zero_area_witness :
  window_has_extent
    (@norm_boxes Stub.utils Stub.window128 (take 2 Stub.img128)) /\
  unmold_detections (U := Stub.utils) Stub.stub_detections Stub.stub_masks
                    Stub.img128 Stub.img128 Stub.window128 =
  Ok (Stub.stub_output.1.1.1, Stub.stub_output.1.1.2, Stub.stub_output.1.2,
      Stub.stub_output.2) /\
  length Stub.stub_output.1.1.1 = 1 /\
  forall b, b ∈ Stub.stub_output.1.1.1 ->
            (0 < box_area b)%Q /\ ~ (y1 b == y2 b)%Q.
Proof.
  split; [exact stub_window_has_extent|].
  split; [exact stub_unmolds|]. split; [reflexivity|].
  destruct (unmold_detections_drops_zero_area (U := Stub.utils)
              _ _ _ _ _ _ _ _ _ stub_window_has_extent stub_unmolds)
    as (selected & _ & _ & _ & _ & _ & _ & _ & _ & Hboxes).
  exact Hboxes.
Defined.

Lemma kept_mask_is_class_channel_witness :
  unmold_detections (U := Stub.utils) Stub.stub_detections Stub.stub_masks
                    Stub.img128 Stub.img128 Stub.window128 =
  Ok (Stub.stub_output.1.1.1, Stub.stub_output.1.1.2, Stub.stub_output.1.2,
      Stub.stub_output.2) /\
  length Stub.stub_output.1.1.2 = length Stub.stub_output.1.1.1 /\
  length (stack_planes Stub.stub_output.2) = length Stub.stub_output.1.1.1.
Proof.
  split; [exact stub_unmolds|].
  destruct (kept_mask_is_class_channel (U := Stub.utils)
              _ _ _ _ _ _ _ _ _ stub_unmolds) as (_ & Hc & Hp & _).
  split; assumption.
Defined.

Lemma unmold_box_uses_normalised_window_witness :
  window_has_extent
    (@norm_boxes Stub.utils Stub.window128 (take 2 Stub.img128)) /\
  unmold_detections (U := Stub.utils) Stub.stub_detections Stub.stub_masks
                    Stub.img128 Stub.img128 Stub.window128 =
  Ok (Stub.stub_output.1.1.1, Stub.stub_output.1.1.2, Stub.stub_output.1.2,
      Stub.stub_output.2) /\
  forall b, b ∈ Stub.stub_output.1.1.1 ->
    exists i d,
      i < valid_count Stub.stub_detections /\
      Stub.stub_detections !! i = Some d /\
      b = unmold_box (U := Stub.utils)
            (Stub.norm_boxes_spec Stub.window128 [128; 128]) Stub.img128
            (det_box d).
Proof.
  split; [exact stub_window_has_extent|]. split; [exact stub_unmolds|].
  destruct (unmold_box_uses_normalised_window (U := Stub.utils)
              _ _ _ _ _ _ _ _ _ stub_window_has_extent stub_unmolds)
    as (_ & _ & Hfrom).
  exact Hfrom.
Defined.

Lemma flat_outputs_fit :
  raw_outputs_fit (U := Stub.utils) Stub.flat_detections Stub.flat_masks.
Proof.
  split; [reflexivity|].
  intros [|[|i]] d row Hd Hrow; simpl in Hd, Hrow; try discriminate;
    injection Hd as <-; injection Hrow as <-; vm_compute;
    (split; [discriminate | reflexivity]).
Defined.

Lemma empty_detections_are_well_formed_witness :
  raw_outputs_fit (U := Stub.utils) Stub.flat_detections Stub.flat_masks /\
  window_has_extent
    (@norm_boxes Stub.utils Stub.window128 (take 2 Stub.img128)) /\
  unmold_detections (U := Stub.utils) Stub.flat_detections Stub.flat_masks
                    [128; 128; 3] Stub.img128 Stub.window128 =
  Ok ([], [], [], MaskStack [128; 128; 0] []).
Proof.
  split; [exact flat_outputs_fit|]. split; [exact stub_window_has_extent|].
  apply (empty_detections_are_well_formed (U := Stub.utils)).
  - exact flat_outputs_fit.
  - exact stub_window_has_extent.
  - intros d Hd. change (d ∈ [Detection (Box (1 # 4) 0 (1 # 4) 1) 2 (8 # 10)]) in Hd.
    apply list_elem_of_singleton in Hd. subst d. vm_compute. discriminate.
Defined.

(** C5, as the specification words it, fails: on a padded molded image the
    detection over the whole window is mapped by the code to the whole
    original image, [(0, 0, 80, 100)], while subtracting and dividing by a
    window in pixel space, converted or as given, ends elsewhere. *)
Lemma spec_window_in_pixel_space_counterexample :
  match unmold_detections (U := Stub.utils) Stub.padded_detections
          Stub.padded_masks Stub.padded_original Stub.padded_shape
          Stub.padded_window with
  | Ok ([b], _, _, _) =>
      ((y1 b == 0) /\ (x1 b == 0) /\ (y2 b == 80) /\ (x2 b == 100))%Q /\
      ~ (y2 (spec_unmold_box_converted (U := Stub.utils) Stub.padded_window
               Stub.padded_shape Stub.padded_original
               (Box (1 # 10) 0 (9 # 10) 1)) == y2 b)%Q /\
      ~ (y2 (spec_unmold_box_pixels (U := Stub.utils) Stub.padded_window
               Stub.padded_shape Stub.padded_original
               (Box (1 # 10) 0 (9 # 10) 1)) == y2 b)%Q
  | _ => False
  end.
Proof.
  vm_compute. repeat split; discriminate.
Qed.

(** ** The detector: facts about the run of [detect] *)

Section DetectorFacts.

Context {U : Utils}.

Lemma np_stack_cases {A} (shape_of : A -> list nat) (arrays : list A) :
  (np_stack shape_of arrays = Ok arrays /\ arrays <> [] /\
   forall a b, a ∈ arrays -> b ∈ arrays -> shape_of a = shape_of b) \/
  (np_stack shape_of arrays = Raise ValueError /\
   (arrays = [] \/
    exists a b, a ∈ arrays /\ b ∈ arrays /\ shape_of a <> shape_of b)).
Proof.
  destruct arrays as [|a rest]; simpl.
  - right. split; [reflexivity|]. by left.
  - destruct (forallb _ rest) eqn:Hall.
    + left. split; [reflexivity|]. split; [discriminate|].
      assert (Hfirst : forall b, b ∈ a :: rest -> shape_of b = shape_of a).
      { intros b [->|Hb]%elem_of_cons; [reflexivity|].
        rewrite forallb_forall in Hall.
        apply list_elem_of_In, Hall in Hb. by apply bool_decide_eq_true in Hb. }
      intros x y Hx Hy. rewrite (Hfirst x Hx), (Hfirst y Hy). reflexivity.
    + right. split; [reflexivity|]. right.
      apply not_true_iff_false in Hall.
      rewrite forallb_forall in Hall.
      destruct (decide (Forall (fun b => shape_of b = shape_of a) rest))
        as [Hf|Hf].
      * exfalso. apply Hall. intros b Hb. apply bool_decide_eq_true.
        rewrite Forall_forall in Hf. apply Hf. by apply list_elem_of_In.
      * apply not_Forall_Exists in Hf; [|intros b; apply _].
        apply Exists_exists in Hf as (b & Hb & Hne).
        exists b, a. split; [by right|]. split; [by left|assumption].
Qed.

Lemma mold_inputs_Ok cfg (images : list image) molded metas windows :
  mold_inputs cfg images = Ok (molded, metas, windows) ->
  molded = map (fun img => (mold_one cfg img).1.1) images /\
  metas = map (fun img => (mold_one cfg img).1.2) images /\
  windows = map (fun img => (mold_one cfg img).2) images /\
  images <> [] /\
  forall a b, a ∈ molded -> b ∈ molded -> shape a = shape b.
Proof.
  unfold mold_inputs. rewrite !map_map.
  destruct (np_stack_cases shape (map (fun x => (mold_one cfg x).1.1) images))
    as [(-> & Hne & Hsame)|[-> _]]; [|discriminate].
  rewrite bind_Ok.
  destruct (np_stack_cases meta_shape
              (map (fun x => (mold_one cfg x).1.2) images))
    as [(-> & _ & _)|[-> _]]; [|discriminate].
  rewrite bind_Ok.
  destruct (np_stack_cases (fun _ : box => [4])
              (map (fun x => (mold_one cfg x).2) images))
    as [(-> & _ & _)|[-> _]]; [|discriminate].
  rewrite bind_Ok. intros [= <- <- <-].
  repeat split; try assumption.
  intros ->. by apply Hne.
Qed.



(** [detect], step by step. *)
Lemma detect_eq (images : list image) (self : MaskRCNN U) (p : process) :
  detect images (self, p) =
  if length images =? BATCH_SIZE (config self) then
    match mold_inputs (config self) images with
    | Raise e => (Raise e, (self, p))
    | Ok (molded_images, image_metas, windows) =>
        match getitem molded_images 0 with
        | Raise e => (Raise e, (self, p))
        | Ok g0 =>
            match mapM (fun g => assert_ (bool_decide (shape g = shape g0))
                                         shape_message)
                       (drop 1 molded_images) with
            | Raise e => (Raise e, (self, p))
            | Ok _ =>
                match get_anchors (shape g0) (self, p) with
                | (Raise e, st1) => (Raise e, st1)
                | (Ok r, (self1, p1)) =>
                    match getitem (arrays p1) r with
                    | Raise e => (Raise e, (self1, p1))
                    | Ok a =>
                        let out := predict (self_keras_model self1)
                                     molded_images image_metas
                                     (repeat a (BATCH_SIZE (config self))) in
                        (mapM (fun ii => detect_one out.1 out.2 molded_images
                                           windows ii.1 ii.2)
                              (imap pair images),
                         (self1, log Predict p1))
                    end
                end
            end
        end
    end
  else (Raise (AssertionError batch_message), (self, p)).
Proof.
  unfold detect, mbind, M_bind, self_config, lift, deref, keras_predict.
  cbn -[get_anchors mold_inputs mapM getitem Nat.eqb].
  destruct (length images =? BATCH_SIZE (config self)); [|reflexivity].
  cbn -[get_anchors mold_inputs mapM getitem].
  destruct (mold_inputs _ _) as [[[molded metas] windows]|e];
    [|reflexivity].
  destruct (getitem molded 0) as [g0|e]; [|reflexivity].
  destruct (mapM _ (drop 1 molded)) as [u|e]; [|reflexivity].
  destruct (get_anchors (shape g0) (self, p)) as [[r|e] [self1 p1]];
    [|reflexivity].
  cbn -[mapM getitem].
  destruct (getitem (arrays p1) r) as [a|e]; [|reflexivity].
  destruct (predict _ _ _ _) as [dets mm]. reflexivity.
Qed.

(** *** What [get_anchors] does on a hit and on a miss *)

Lemma get_anchors_hit (self : MaskRCNN U) (p : process) (s : list nat)
    (r : nat) :
  cache_of self !! s = Some r ->
  get_anchors s (self, p) =
  (Ok r, ({| config := config self;
             self_keras_model := self_keras_model self;
             _anchor_cache := Some (cache_of self);
             anchors := anchors self |}, p)).
Proof.
  intros H. unfold get_anchors. fold (cache_of self). rewrite H.
  cbv beta iota zeta. rewrite H. reflexivity.
Qed.

Lemma get_anchors_miss (self : MaskRCNN U) (p : process) (s : list nat) :
  cache_of self !! s = None ->
  exists a,
    get_anchors s (self, p) =
    (Ok (S (length (arrays p))),
     ({| config := config self;
         self_keras_model := self_keras_model self;
         _anchor_cache :=
           Some (<[s := S (length (arrays p))]> (cache_of self));
         anchors := Some (length (arrays p)) |},
      Process ((arrays p ++ [a]) ++
                 [map (fun b => norm_boxes b (take 2 s)) a])
              (trace p ++ [Generate s]))).
Proof.
  intros H. eexists. unfold get_anchors. fold (cache_of self). rewrite H.
  unfold alloc, log. simpl. rewrite lookup_insert_eq.
  rewrite length_app. simpl. rewrite Nat.add_1_r. reflexivity.
Qed.

Lemma cache_of_Some (cfg : Config) (model : keras_model)
    (c : gmap (list nat) nat) (latest : option nat) :
  cache_of {| config := cfg; self_keras_model := model;
              _anchor_cache := Some c; anchors := latest |} = c.
Proof. reflexivity. Qed.

(** [get_anchors] always returns a reference, which the cache then holds,
    keeps the entries of the cache, and leaves the configuration and the
    model of the instance alone; it generates anchors only when the shape is
    not in the cache. *)
Lemma get_anchors_Ok (self : MaskRCNN U) (p : process) (s : list nat) :
  exists r self1 p1,
    get_anchors s (self, p) = (Ok r, (self1, p1)) /\
    _anchor_cache self1 = Some (cache_of self1) /\
    cache_of self1 !! s = Some r /\
    (forall s' r', cache_of self !! s' = Some r' ->
                   cache_of self1 !! s' = Some r') /\
    (forall s', s' <> s -> cache_of self1 !! s' = cache_of self !! s') /\
    config self1 = config self /\
    self_keras_model self1 = self_keras_model self /\
    trace p1 = trace p ++ match cache_of self !! s with
                          | Some _ => []
                          | None => [Generate s]
                          end.
Proof.
  destruct (cache_of self !! s) as [r|] eqn:Hs.
  - exists r. eexists. exists p. rewrite (get_anchors_hit _ _ _ _ Hs).
    split; [reflexivity|]. rewrite !cache_of_Some. simpl.
    repeat split; try assumption; try done. by rewrite app_nil_r.
  - destruct (get_anchors_miss self p s Hs) as [a Ha].
    eexists. eexists. eexists. split; [exact Ha|].
    rewrite !cache_of_Some. simpl. repeat split.
    + apply lookup_insert_eq.
    + intros s' r' H'. rewrite lookup_insert_ne; [assumption|].
      intros ->. congruence.
    + intros s' Hne. by rewrite lookup_insert_ne.
Qed.

(** *** Which exceptions the assembly can raise *)

Lemma getitem_Raise {A} (l : list A) (i : nat) (e : exn) :
  getitem l i = Raise e -> e = IndexError.
Proof. unfold getitem. destruct (l !! i); congruence. Qed.

Lemma select_masks_Raise (mrcnn_mask : list (list raw_mask)) (N : nat)
    (cids : list Z) (e : exn) :
  select_masks mrcnn_mask N cids = Raise e -> e = IndexError.
Proof.
  intros ([i c] & _ & Hf)%mapM_Raise. simpl in Hf.
  destruct (getitem mrcnn_mask i) as [row|e1] eqn:Hrow.
  - rewrite bind_Ok in Hf. unfold Np.index in Hf.
    destruct (_ && _)%Z.
    + rewrite bind_Ok in Hf. by apply getitem_Raise in Hf.
    + destruct (_ && _)%Z.
      * rewrite bind_Ok in Hf. by apply getitem_Raise in Hf.
      * rewrite bind_Raise in Hf. congruence.
  - rewrite bind_Raise in Hf. apply getitem_Raise in Hrow. congruence.
Qed.



Lemma detect_one_Ok (detections : list (list detection))
    (mrcnn_mask : list (list (list raw_mask))) (molded_images : list image)
    (windows : list box) (i : nat) (img : image) (r : result_record U) :
  detect_one detections mrcnn_mask molded_images windows i img = Ok r ->
  exists d m g w,
    detections !! i = Some d /\ mrcnn_mask !! i = Some m /\
    molded_images !! i = Some g /\ windows !! i = Some w /\
    unmold_detections d m (shape img) (shape g) w =
    Ok (rois r, class_ids r, scores r, masks r).
Proof.
  unfold detect_one.
  destruct (getitem detections i) as [d|e1] eqn:H1; [|discriminate].
  destruct (getitem mrcnn_mask i) as [m|e1] eqn:H2; [|discriminate].
  destruct (getitem molded_images i) as [g|e1] eqn:H3; [|discriminate].
  destruct (getitem windows i) as [w|e1] eqn:H4; [|discriminate].
  rewrite !bind_Ok.
  destruct (unmold_detections d m (shape img) (shape g) w)
    as [[[[b c] sc] fm]|e1] eqn:H5; [|discriminate].
  rewrite bind_Ok. intros [= <-]. simpl.
  exists d, m, g, w. apply getitem_Ok in H1, H2, H3, H4. by repeat split.
Qed.

End DetectorFacts.

(** ** The detector: the claims *)

Section DetectorClaims.

Context {U : Utils}.

(** C1: a batch that [detect] accepts gives a list with one record per
    input image, in input order: the record at index [i] goes with row
    [i] of the predictor's detections and masks: for a window with an
    extent, it is what [unmold_detections] returns for that row, the shape
    of image [i], the shape of its molded image and its window.  The
    predictor was given the molded images, the metas and [BATCH_SIZE]
    references to the anchors that [get_anchors] returned for the molded
    shape.  In each record the class ids and the scores have as
    many rows as the boxes, and the mask stack has that many planes and the
    shape of the first two extents of the image followed by that count.
    [unmold_mask] is taken to fill a canvas of the original extents. *)
Theorem detect_one_record_per_image (images : list image)
    (st st' : MaskRCNN U * process) (results : list (result_record U)) :
  unmold_mask_on_canvas ->
  detect images st = (Ok results, st') ->
  length results = length images /\
  exists molded_images image_metas windows g0 r a,
    mold_inputs (config st.1) images =
      Ok (molded_images, image_metas, windows) /\
    molded_images !! 0 = Some g0 /\
    (get_anchors (shape g0) st).1 = Ok r /\
    arrays (get_anchors (shape g0) st).2.2 !! r = Some a /\
    let out := predict (self_keras_model st.1) molded_images image_metas
                       (repeat a (BATCH_SIZE (config st.1))) in
    forall i img, images !! i = Some img ->
      exists rec d m,
        results !! i = Some rec /\
        out.1 !! i = Some d /\
        out.2 !! i = Some m /\
        molded_images !! i = Some (mold_one (config st.1) img).1.1 /\
        windows !! i = Some (mold_one (config st.1) img).2 /\
        (window_has_extent
           (norm_boxes (mold_one (config st.1) img).2
                       (take 2 (shape (mold_one (config st.1) img).1.1))) ->
         unmold_detections d m (shape img)
           (shape (mold_one (config st.1) img).1.1)
           (mold_one (config st.1) img).2 =
         Ok (rois rec, class_ids rec, scores rec, masks rec)) /\
        length (class_ids rec) = length (rois rec) /\
        length (scores rec) = length (rois rec) /\
        length (stack_planes (masks rec)) = length (rois rec) /\
        stack_shape (masks rec) = take 2 (shape img) ++ [length (rois rec)].
Proof.
  intros Hcanvas Hdet. destruct st as [self p]. rewrite detect_eq in Hdet.
  cbn [fst].
  destruct (length images =? _); [|discriminate].
  destruct (mold_inputs _ _) as [[[molded metas] windows]|e] eqn:Hmold;
    [|discriminate].
  destruct (getitem molded 0) as [g0|e] eqn:Hg0; [|discriminate].
  destruct (mapM _ (drop 1 molded)) as [u|e]; [|discriminate].
  destruct (get_anchors_Ok self p (shape g0))
    as (r & self1 & p1 & Hget & _ & _ & _ & _ & _ & Hmodel & _).
  rewrite Hget in Hdet.
  destruct (getitem (arrays p1) r) as [a|e] eqn:Ha; [|discriminate].
  cbv zeta in Hdet. rewrite Hmodel in Hdet.
  set (out := predict _ _ _ _) in Hdet.
  injection Hdet as Hres _. apply mapM_Ok in Hres.
  split.
  { apply Forall2_length in Hres. rewrite length_imap in Hres. lia. }
  exists molded, metas, windows, g0, r, a.
  apply getitem_Ok in Hg0, Ha. rewrite Hget. cbn [fst snd].
  do 4 (split; [done|]). fold out. intros i img Hi.
  assert (Hii : imap pair images !! i = Some (i, img))
    by (rewrite list_lookup_imap, Hi; reflexivity).
  destruct (Forall2_lookup_l _ _ _ _ _ Hres Hii) as (rec & Hrec & Hone).
  simpl in Hone.
  apply detect_one_Ok in Hone as (d & m & g & w & Hd & Hm & Hg & Hw & Hun).
  apply mold_inputs_Ok in Hmold as (-> & _ & -> & _ & _).
  rewrite list_lookup_fmap, Hi in Hg. rewrite list_lookup_fmap, Hi in Hw.
  simpl in Hg, Hw. injection Hg as <-. injection Hw as <-.
  exists rec, d, m. do 3 (split; [assumption|]).
  rewrite !list_lookup_fmap, Hi. do 2 (split; [done|]).
  split; [intros _; exact Hun|].
  rewrite (unmold_detections_eq _ _ _ _ _ Hcanvas) in Hun.
  destruct (select_masks _ _ _) as [selected|e]; [|discriminate].
  rewrite bind_Ok in Hun. cbv zeta in Hun.
  injection Hun as <- <- <- <-. simpl. rewrite !length_map. done.
Qed.


(** C10: for every image, [mold_inputs] composes the meta with image id 0
    and an array of [NUM_CLASSES] zeros as active class ids; whatever reads
    the active class ids back from a meta finds the same zeros for every
    image. *)
Theorem mold_inputs_meta_is_class_blind (cfg : Config) (images : list image)
    (molded_images : list image) (image_metas : list image_meta)
    (windows : list box) :
  mold_inputs cfg images = Ok (molded_images, image_metas, windows) ->
  length image_metas = length images /\
  (forall i img, images !! i = Some img ->
     exists molded_image window scale,
       molded_images !! i = Some molded_image /\
       windows !! i = Some window /\
       image_metas !! i =
       Some (compose_image_meta 0 (shape img) (shape molded_image) window
               scale (repeat 0%Z (NUM_CLASSES cfg)))) /\
  (forall active_of : image_meta -> list Z,
     (forall id s1 s2 w sc a,
        active_of (compose_image_meta id s1 s2 w sc a) = a) ->
     forall m, m ∈ image_metas ->
       active_of m = repeat 0%Z (NUM_CLASSES cfg) /\
       length (active_of m) = NUM_CLASSES cfg /\
       Forall (fun c => c = 0%Z) (active_of m)) /\
  (forall id_of : image_meta -> Z,
     (forall id s1 s2 w sc a,
        id_of (compose_image_meta id s1 s2 w sc a) = id) ->
     forall m, m ∈ image_metas -> id_of m = 0%Z).
Proof.
  intros (-> & -> & -> & _ & _)%mold_inputs_Ok.
  assert (Hmeta : forall img,
            exists molded_image window scale,
              (mold_one cfg img).1.1 = molded_image /\
              (mold_one cfg img).2 = window /\
              (mold_one cfg img).1.2 =
              compose_image_meta 0 (shape img) (shape molded_image) window
                scale (repeat 0%Z (NUM_CLASSES cfg))).
  { intros img. unfold mold_one.
    destruct (resize_image _ _ _ _ _) as [[[[g w] sc] pad] cr]. simpl.
    eexists _, _, _. repeat split. }
  split; [by rewrite length_map|]. split; [|split].
  - intros i img Hi.
    destruct (Hmeta img) as (g & w & sc & Hg & Hw & Hm).
    exists g, w, sc. rewrite !list_lookup_fmap, Hi. simpl.
    rewrite Hg, Hw, Hm. done.
  - intros active_of Hread m (img & -> & _)%list_elem_of_fmap.
    destruct (Hmeta img) as (g & w & sc & _ & _ & ->). rewrite Hread.
    split; [reflexivity|]. split; [apply repeat_length|].
    apply Forall_forall. intros c Hc%list_elem_of_In. by apply repeat_spec in Hc.
  - intros id_of Hread m (img & -> & _)%list_elem_of_fmap.
    destruct (Hmeta img) as (g & w & sc & _ & _ & ->). apply Hread.
Qed.

End DetectorClaims.

(** ** The size check of [build] *)

Lemma not_dividable_spec (h : Z) : not_dividable h = false <-> (64 | h)%Z.
Proof.
  unfold not_dividable, py_int. change (2 ^ 6)%Z with 64%Z.
  rewrite negb_false_iff, Qeq_bool_iff.
  unfold Qeq, Qdiv, Qmult, Qinv, inject_Z. simpl.
  rewrite <- Z.rem_divide by lia. rewrite <- Z.quot_exact by lia.
  rewrite !Z.mul_1_r. change (Z.pos (1 * 64)) with 64%Z.
  rewrite (Z.mul_comm 64). reflexivity.
Qed.

(** C8: for an [IMAGE_SHAPE] whose height and width are floats exactly,
    [build], and with it the construction of a detector, raises the size
    exception exactly when the height or the width is not a multiple of 64,
    whatever follows them in the shape.  For multiples of 64 no exception
    with a message is raised: [build] goes on to read the third extent,
    which raises [IndexError] when there is none, and to the Keras graph
    otherwise. *)
Theorem build_requires_multiples_of_64 `{U : Utils} (cfg : Config)
    (h w : Z) (rest : list Z) :
  IMAGE_SHAPE cfg = h :: w :: rest ->
  float_exact h -> float_exact w ->
  ((64 | h)%Z /\ (64 | w)%Z ->
   (forall msg, build cfg <> Raise (Exception msg)) /\
   (forall msg, init cfg <> Raise (Exception msg)) /\
   (rest = [] ->
    build cfg = Raise IndexError /\ init cfg = Raise IndexError) /\
   (rest <> [] ->
    build cfg = Ok (build_graph cfg) /\
    init cfg = Ok {| config := cfg; self_keras_model := build_graph cfg;
                     _anchor_cache := None; anchors := None |})) /\
  (~ ((64 | h)%Z /\ (64 | w)%Z) ->
   build cfg = Raise (Exception build_message) /\
   init cfg = Raise (Exception build_message)).
Proof.
  intros Hshape _ _. unfold init, build. rewrite Hshape. simpl.
  pose proof (not_dividable_spec h) as Hh.
  pose proof (not_dividable_spec w) as Hw.
  destruct (not_dividable h), (not_dividable w); simpl; split; intros H;
    try (split; reflexivity); try (exfalso; intuition congruence).
  destruct rest as [|c rest]; simpl; repeat split; try discriminate;
    try reflexivity; try done.
Qed.

Lemma build_requires_multiples_of_64_witness :
  IMAGE_SHAPE Stub.cfg = [128; 128; 3]%Z /\
  float_exact 128 /\
  init (U := Stub.utils) Stub.cfg = Ok Stub.detector.
Proof.
  assert (Hf : float_exact 128) by reflexivity.
  split; [reflexivity|]. split; [exact Hf|].
  apply (build_requires_multiples_of_64 (U := Stub.utils) Stub.cfg
           128 128 [3%Z] eq_refl Hf Hf).
  - split; [exists 2%Z | exists 2%Z]; reflexivity.
  - discriminate.
Defined.

(** ** The anchor cache *)

Lemma generations_app (s : list nat) (t t' : list event) :
  generations s (t ++ t') = generations s t + generations s t'.
Proof. unfold generations. by rewrite List.filter_app, length_app. Qed.

Section CacheFacts.

Context {U : Utils}.

(** A run of [get_anchors] over a list of shapes: how often each shape is
    generated, what the cache holds afterwards, and which references are
    returned. *)
Lemma get_anchors_all_spec (shapes : list (list nat)) (self : MaskRCNN U)
    (p : process) :
  let run := get_anchors_all shapes (self, p) in
  (forall s, s ∈ shapes -> cache_of self !! s = None ->
             generations s (trace run.2.2) = S (generations s (trace p))) /\
  (forall s, s ∉ shapes \/ is_Some (cache_of self !! s) ->
             generations s (trace run.2.2) = generations s (trace p)) /\
  (forall s r, cache_of self !! s = Some r ->
               cache_of run.2.1 !! s = Some r) /\
  (forall i s, shapes !! i = Some s ->
               exists r, run.1 !! i = Some (Ok r) /\
                         cache_of run.2.1 !! s = Some r).
Proof.
  revert self p.
  induction shapes as [|s0 rest IH]; intros self p; cbn [get_anchors_all].
  - simpl. repeat split.
    + intros s Hs. inversion Hs.
    + intros s r H. exact H.
    + intros i s Hi. discriminate.
  - destruct (get_anchors_Ok self p s0)
      as (r0 & self1 & p1 & -> & _ & Hr0 & Hkeep & Hother & _ & _ & Htrace).
    specialize (IH self1 p1).
    destruct (get_anchors_all rest (self1, p1)) as [rs [self2 p2]].
    cbn [fst snd] in *. destruct IH as (IHnew & IHold & IHkeep & IHret).
    assert (Hgen0 : forall s, s <> s0 ->
              generations s (trace p1) = generations s (trace p)).
    { intros s Hne. rewrite Htrace, generations_app.
      destruct (cache_of self !! s0); unfold generations; simpl;
        [lia|]. rewrite bool_decide_eq_false_2 by congruence. simpl. lia. }
    repeat split.
    + intros s Hs Hnone. destruct (decide (s = s0)) as [->|Hne].
      * rewrite IHold by (right; eauto).
        rewrite Htrace, generations_app, Hnone. unfold generations at 2.
        simpl. rewrite bool_decide_eq_true_2 by reflexivity. simpl. lia.
      * apply elem_of_cons in Hs as [?|Hs]; [done|].
        rewrite IHnew; [by rewrite Hgen0|assumption|].
        by rewrite Hother.
    + intros s Hs. destruct (decide (s = s0)) as [->|Hne].
      * destruct Hs as [Hs|[r Hr]]; [exfalso; apply Hs; by left|].
        rewrite IHold by (right; eauto).
        rewrite Htrace, Hr. by rewrite app_nil_r.
      * rewrite IHold; [by apply Hgen0|].
        destruct Hs as [Hs|Hs].
        -- left. intros Hin. apply Hs. by right.
        -- right. by rewrite Hother.
    + intros s r Hs. apply IHkeep, Hkeep, Hs.
    + intros [|i] s Hi; simpl in *.
      * injection Hi as <-. exists r0. split; [reflexivity|].
        by apply IHkeep.
      * by apply IHret.
Qed.

Lemma detect_keeps_cache (images : list image) (self : MaskRCNN U)
    (p : process) (s : list nat) (r : nat) :
  cache_of self !! s = Some r ->
  cache_of (detect images (self, p)).2.1 !! s = Some r.
Proof.
  intros Hs. rewrite detect_eq.
  destruct (length images =? _); [|assumption].
  destruct (mold_inputs _ _) as [[[molded metas] windows]|e]; [|assumption].
  destruct (getitem molded 0) as [g0|e]; [|assumption].
  destruct (mapM _ (drop 1 molded)) as [u|e]; [|assumption].
  destruct (get_anchors_Ok self p (shape g0))
    as (r0 & self1 & p1 & -> & _ & _ & Hkeep & _).
  destruct (getitem (arrays p1) r0) as [a|e]; simpl; by apply Hkeep.
Qed.

(** C9, as the code has it: the cache is an attribute of the detector
    instance.  On one instance, a second call of [get_anchors] with the same
    shape returns the same reference and changes nothing, hence generates
    nothing; over any run of calls, anchors are generated once for each
    requested shape the cache did not hold and never for the others; calls
    with equal shapes return equal references; and neither [get_anchors] nor
    [detect] removes an entry of the cache. *)
Theorem anchors_cached_per_instance (self : MaskRCNN U) (p : process) :
  (forall s, exists r self1 p1,
     get_anchors s (self, p) = (Ok r, (self1, p1)) /\
     get_anchors s (self1, p1) = (Ok r, (self1, p1)) /\
     cache_of self1 !! s = Some r) /\
  (forall shapes,
     let run := get_anchors_all shapes (self, p) in
     (forall s, s ∈ shapes -> cache_of self !! s = None ->
        generations s (trace run.2.2) = S (generations s (trace p))) /\
     (forall s, s ∉ shapes \/ is_Some (cache_of self !! s) ->
        generations s (trace run.2.2) = generations s (trace p)) /\
     (forall i j s, shapes !! i = Some s -> shapes !! j = Some s ->
        exists r, run.1 !! i = Some (Ok r) /\ run.1 !! j = Some (Ok r)) /\
     (forall s r, cache_of self !! s = Some r ->
        cache_of run.2.1 !! s = Some r)) /\
  (forall images s r, cache_of self !! s = Some r ->
     cache_of (detect images (self, p)).2.1 !! s = Some r).
Proof.
  split; [|split].
  - intros s.
    destruct (get_anchors_Ok self p s)
      as (r & self1 & p1 & Hfirst & Hattr & Hr & _).
    exists r, self1, p1. split; [assumption|]. split; [|assumption].
    rewrite (get_anchors_hit _ _ _ _ Hr). rewrite <- Hattr.
    destruct self1. reflexivity.
  - intros shapes run.
    destruct (get_anchors_all_spec shapes self p)
      as (Hnew & Hold & Hkeep & Hret).
    fold run in Hnew, Hold, Hkeep, Hret.
    repeat split; try assumption.
    intros i j s Hi Hj.
    destruct (Hret i s Hi) as (ri & Hri & Hci).
    destruct (Hret j s Hj) as (rj & Hrj & Hcj).
    exists ri. split; [assumption|]. congruence.
  - intros images s r. apply detect_keeps_cache.
Qed.

End CacheFacts.

Lemma anchors_cached_per_instance_witness :
  cache_of Stub.detector !! [128; 128; 3] = None /\
  generations [128; 128; 3]
    (trace (get_anchors_all (U := Stub.utils)
              [[128; 128; 3]; [65; 65; 3]; [128; 128; 3]]
              (Stub.detector, Stub.fresh)).2.2) = 1.
Proof.
  split; [reflexivity|].
  destruct (anchors_cached_per_instance (U := Stub.utils) Stub.detector
              Stub.fresh) as (_ & Hrun & _).
  destruct (Hrun [[128; 128; 3]; [65; 65; 3]; [128; 128; 3]])
    as (Hnew & _).
  apply (Hnew [128; 128; 3]).
  - by left.
  - reflexivity.
Defined.

(** C9, as the claim has it, fails: the cache is not shared in the process.
    Two detector instances built in one process, asked in turn for the
    anchors of the same shape, generate them twice and return two different
    objects. *)
Lemma anchor_cache_is_not_process_wide :
  match init (U := Stub.utils) Stub.cfg, init (U := Stub.utils) Stub.cfg with
  | Ok a, Ok b =>
      let first := get_anchors [128; 128; 3] (a, Stub.fresh) in
      let second := get_anchors [128; 128; 3] (b, first.2.2) in
      first.1 = Ok 1 /\ second.1 = Ok 3 /\
      trace second.2.2 = [Generate [128; 128; 3]; Generate [128; 128; 3]] /\
      generations [128; 128; 3] (trace second.2.2) = 2
  | _, _ => False
  end.
Proof. vm_compute. repeat split. Qed.

(** ** The detector on the stub *)

Lemma detect_one_record_per_image_witness :
  unmold_mask_on_canvas (U := Stub.utils) /\
  detect (U := Stub.utils) [Stub.img128; Stub.img128]
         (Stub.detector, Stub.fresh) =
  (Ok Stub.stub_results, Stub.stub_run.2) /\
  length Stub.stub_results = 2.
Proof.
  assert (Hrun : detect (U := Stub.utils) [Stub.img128; Stub.img128]
                        (Stub.detector, Stub.fresh) =
                 (Ok Stub.stub_results, Stub.stub_run.2))
    by (vm_compute; reflexivity).
  split; [exact stub_unmold_mask_on_canvas|]. split; [exact Hrun|].
  exact (proj1 (detect_one_record_per_image (U := Stub.utils) _ _ _ _
                  stub_unmold_mask_on_canvas Hrun)).
Defined.


Lemma mold_inputs_meta_is_class_blind_witness :
  mold_inputs (U := Stub.utils) Stub.cfg [Stub.img128; Stub.img128] =
  Ok (Stub.stub_molded.1.1, Stub.stub_molded.1.2, Stub.stub_molded.2) /\
  forall m, m ∈ Stub.stub_molded.1.2 ->
    Stub.active_class_ids m = [0; 0; 0]%Z /\
    length (Stub.active_class_ids m) = 3 /\
    Forall (fun c => c = 0%Z) (Stub.active_class_ids m).
Proof.
  assert (Hmold : mold_inputs (U := Stub.utils) Stub.cfg
                    [Stub.img128; Stub.img128] =
                  Ok (Stub.stub_molded.1.1, Stub.stub_molded.1.2,
                      Stub.stub_molded.2))
    by (vm_compute; reflexivity).
  split; [exact Hmold|].
  destruct (mold_inputs_meta_is_class_blind (U := Stub.utils) _ _ _ _ _ Hmold)
    as (_ & _ & Hactive & _).
  apply (Hactive Stub.active_class_ids). intros. reflexivity.
Defined.

(** * Further properties of the class *)

(** ** The anchors behind the cache *)

Section AnchorFacts.

Context {U : Utils}.

Lemma get_anchors_miss_eq (self : MaskRCNN U) (p : process) (s : list nat) :
  cache_of self !! s = None ->
  get_anchors s (self, p) =
  (Ok (S (length (arrays p))),
   ({| config := config self;
       self_keras_model := self_keras_model self;
       _anchor_cache :=
         Some (<[s := S (length (arrays p))]> (cache_of self));
       anchors := Some (length (arrays p)) |},
    Process ((arrays p ++ [pixel_anchors_for (config self) s]) ++
               [anchors_for (config self) s])
            (trace p ++ [Generate s]))).
Proof.
  intros H. unfold get_anchors. fold (cache_of self). rewrite H.
  unfold alloc, log. simpl. rewrite lookup_insert_eq.
  rewrite length_app. simpl. rewrite Nat.add_1_r. reflexivity.
Qed.

Lemma self_eta (self : MaskRCNN U) :
  _anchor_cache self = Some (cache_of self) ->
  {| config := config self; self_keras_model := self_keras_model self;
     _anchor_cache := Some (cache_of self); anchors := anchors self |} = self.
Proof. intros H. rewrite <- H. destruct self. reflexivity. Qed.

(** One call of [get_anchors] from a sound cache. *)
Lemma get_anchors_sound (self : MaskRCNN U) (p : process) (s : list nat) :
  cache_sound self p ->
  exists r self1 p1,
    get_anchors s (self, p) = (Ok r, (self1, p1)) /\
    cache_sound self1 p1 /\
    arrays p1 !! r = Some (anchors_for (config self) s) /\
    _anchor_cache self1 = Some (cache_of self1) /\
    cache_of self1 !! s = Some r /\
    config self1 = config self /\
    self_keras_model self1 = self_keras_model self /\
    (forall i a, arrays p !! i = Some a -> arrays p1 !! i = Some a) /\
    trace p1 = trace p ++ match cache_of self !! s with
                          | Some _ => []
                          | None => [Generate s]
                          end.
Proof.
  intros Hsound. destruct (cache_of self !! s) as [r|] eqn:Hs.
  - exists r. eexists. exists p. rewrite (get_anchors_hit _ _ _ _ Hs).
    split; [reflexivity|]. rewrite !cache_of_Some. simpl.
    repeat split; try done.
    + by apply Hsound.
    + by rewrite app_nil_r.
  - rewrite (get_anchors_miss_eq _ _ _ Hs).
    eexists. eexists. eexists. split; [reflexivity|].
    rewrite !cache_of_Some. simpl.
    assert (Hnew : ((arrays p ++ [pixel_anchors_for (config self) s]) ++
                      [anchors_for (config self) s])
                   !! S (length (arrays p))
                   = Some (anchors_for (config self) s)).
    { rewrite lookup_app_r by (rewrite length_app; simpl; lia).
      rewrite length_app. simpl.
      replace (S (length (arrays p)) - (length (arrays p) + 1)) with 0
        by lia. reflexivity. }
    repeat split; try done.
    + intros s' r'. unfold cache_sound in Hsound. simpl.
      rewrite cache_of_Some.
      destruct (decide (s' = s)) as [->|Hne].
      * rewrite lookup_insert_eq. intros [= <-]. exact Hnew.
      * rewrite lookup_insert_ne by done. intros Hr'.
        apply Hsound in Hr'. rewrite <- app_assoc.
        by apply lookup_app_l_Some.
    + apply lookup_insert_eq.
    + intros i a Hi. rewrite <- app_assoc. by apply lookup_app_l_Some.
Qed.

(** X1: the cache of a newly built detector is sound, and from a sound
    cache [get_anchors] returns a reference to the normalised pyramid of the
    shape it is asked for, whether the shape was cached or not; the cache
    stays sound and no array already allocated is changed. *)
Theorem get_anchors_returns_normalised_anchors :
  (forall cfg (self : MaskRCNN U) p, init cfg = Ok self -> cache_sound self p) /\
  (forall (self : MaskRCNN U) p s,
     cache_sound self p ->
     exists r self1 p1,
       get_anchors s (self, p) = (Ok r, (self1, p1)) /\
       arrays p1 !! r = Some (anchors_for (config self) s) /\
       cache_sound self1 p1 /\
       (forall i a, arrays p !! i = Some a -> arrays p1 !! i = Some a)).
Proof.
  split.
  - intros cfg self p. unfold init.
    destruct (build cfg) as [model|e]; [|discriminate].
    rewrite bind_Ok. intros [= <-] s r. unfold cache_of. simpl.
    rewrite lookup_empty. discriminate.
  - intros self p s Hsound.
    destruct (get_anchors_sound self p s Hsound)
      as (r & self1 & p1 & Hrun & Hs1 & Hr & _ & _ & _ & _ & Hgrow & _).
    exists r, self1, p1. by repeat split.
Qed.

(** X2: [self.anchors] is written only when anchors are generated.  After
    the anchors of a shape [s'] were generated, a call for a shape [s] that
    the cache already holds leaves the attribute on the pixel pyramid of
    [s']: it is the pyramid of the last shape generated, not of the last
    shape asked for. *)
Theorem anchors_attribute_is_last_generated (self : MaskRCNN U) (p : process)
    (s s' : list nat) :
  cache_of self !! s' = None ->
  is_Some (cache_of self !! s) ->
  let st1 := (get_anchors s' (self, p)).2 in
  let st2 := (get_anchors s st1).2 in
  exists ra,
    anchors st2.1 = Some ra /\
    arrays st2.2 !! ra = Some (pixel_anchors_for (config self) s') /\
    (get_anchors s st1).1 = (get_anchors s (self, p)).1.
Proof.
  intros Hnone [r Hr]. cbv zeta.
  rewrite (get_anchors_miss_eq _ _ _ Hnone). cbn [snd].
  assert (Hne : s' <> s) by (intros ->; congruence).
  set (self1 := {| config := config self; self_keras_model := _;
                   _anchor_cache := _; anchors := _ |}).
  assert (Hr1 : cache_of self1 !! s = Some r).
  { unfold self1. rewrite cache_of_Some. by rewrite lookup_insert_ne. }
  rewrite (get_anchors_hit _ _ _ _ Hr1), (get_anchors_hit _ _ _ _ Hr).
  cbn [fst snd anchors arrays self1].
  exists (length (arrays p)). repeat split.
  rewrite <- app_assoc. rewrite lookup_app_r by lia.
  by rewrite Nat.sub_diag.
Qed.

End AnchorFacts.

(** ** [detect] and its cache *)

Section DetectRuns.

Context {U : Utils}.

Lemma cache_sound_log (self : MaskRCNN U) (p : process) (e : event) :
  cache_sound self p -> cache_sound self (log e p).
Proof. intros H s r Hs. by apply H. Qed.

Lemma detect_uncached_ext (self self' : MaskRCNN U) (images : list image) :
  config self' = config self ->
  self_keras_model self' = self_keras_model self ->
  detect_uncached self' images = detect_uncached self images.
Proof. intros Hc Hm. unfold detect_uncached. by rewrite Hc, Hm. Qed.

Lemma asserts_pass (molded : list image) (g0 : image) :
  (forall a b, a ∈ molded -> b ∈ molded -> shape a = shape b) ->
  molded !! 0 = Some g0 ->
  exists u,
    mapM (fun g => assert_ (bool_decide (shape g = shape g0)) shape_message)
         (drop 1 molded) = Ok u.
Proof.
  intros Hsame Hg0.
  destruct (mapM _ (drop 1 molded)) as [u|e] eqn:Hassert; [by exists u|].
  exfalso. apply mapM_Raise in Hassert as (g & Hg & Hfail).
  unfold assert_ in Hfail.
  rewrite bool_decide_eq_true_2 in Hfail; [discriminate|].
  apply Hsame.
  - apply list_elem_of_lookup_1 in Hg as [k Hk].
    rewrite lookup_drop in Hk. eapply list_elem_of_lookup_2, Hk.
  - eapply list_elem_of_lookup_2, Hg0.
Qed.

Lemma accepted_shape_Some (cfg : Config) (images : list image)
    (s : list nat) :
  accepted_shape cfg images = Some s ->
  exists g0 rest metas windows,
    (length images =? BATCH_SIZE cfg) = true /\
    mold_inputs cfg images = Ok (g0 :: rest, metas, windows) /\
    s = shape g0.
Proof.
  unfold accepted_shape.
  destruct (length images =? BATCH_SIZE cfg); [|discriminate].
  destruct (mold_inputs cfg images) as [[[[|g0 rest] metas] windows]|e];
    try discriminate.
  intros [= <-]. by exists g0, rest, metas, windows.
Qed.

(** A batch that is not accepted leaves everything as it was. *)
Lemma detect_rejected (images : list image) (self : MaskRCNN U)
    (p : process) :
  accepted_shape (config self) images = None ->
  detect images (self, p) = (detect_uncached self images, (self, p)) /\
  exists e, detect_uncached self images = Raise e.
Proof.
  unfold accepted_shape, detect_uncached. rewrite detect_eq. cbv zeta.
  destruct (length images =? BATCH_SIZE (config self)).
  - change (assert_ true batch_message) with (Ok tt). rewrite bind_Ok.
    destruct (mold_inputs _ _) as [[[[|g0 rest] metas] windows]|e];
      try discriminate; intros _; (split; [reflexivity|]); eauto.
  - intros _. split; [reflexivity|]. eauto.
Qed.

(** A batch that is accepted goes through [get_anchors] and the
    predictor. *)
Lemma detect_accepted (images : list image) (self self1 : MaskRCNN U)
    (p p1 : process) (s : list nat) (r : nat) :
  accepted_shape (config self) images = Some s ->
  get_anchors s (self, p) = (Ok r, (self1, p1)) ->
  arrays p1 !! r = Some (anchors_for (config self) s) ->
  self_keras_model self1 = self_keras_model self ->
  detect images (self, p) =
  (detect_uncached self images, (self1, log Predict p1)).
Proof.
  intros (g0 & rest & metas & windows & Hlen & Hmold & ->)%accepted_shape_Some
         Hget Hr Hmodel.
  rewrite detect_eq. unfold detect_uncached. cbv zeta.
  rewrite Hlen, Hmold. change (assert_ true batch_message) with (Ok tt).
  rewrite !bind_Ok.
  change (getitem (g0 :: rest) 0) with (Ok g0). rewrite !bind_Ok.
  destruct (asserts_pass (g0 :: rest) g0) as [u Hu];
    [by apply mold_inputs_Ok in Hmold as (_ & _ & _ & _ & ?)|reflexivity|].
  rewrite Hu, bind_Ok, Hget.
  rewrite (proj2 (getitem_Ok _ _ _) Hr), Hmodel. reflexivity.
Qed.

Lemma detect_result_uncached (images : list image) (self : MaskRCNN U)
    (p : process) :
  cache_sound self p ->
  (detect images (self, p)).1 = detect_uncached self images.
Proof.
  intros Hsound.
  destruct (accepted_shape (config self) images) as [s|] eqn:Hacc.
  - destruct (get_anchors_sound self p s Hsound)
      as (r & self1 & p1 & Hget & _ & Hr & _ & _ & _ & Hmodel & _).
    by rewrite (detect_accepted _ _ _ _ _ _ _ Hacc Hget Hr Hmodel).
  - by destruct (detect_rejected images self p Hacc) as [-> _].
Qed.

(** X3: from a sound cache, [detect] returns exactly what it would return
    with the anchors computed afresh, for every batch, accepted or not, and
    the cache is sound afterwards: the cache changes no result. *)
Theorem detect_agrees_with_uncached (images : list image)
    (self : MaskRCNN U) (p : process) :
  cache_sound self p ->
  (detect images (self, p)).1 = detect_uncached self images /\
  cache_sound (detect images (self, p)).2.1 (detect images (self, p)).2.2 /\
  config (detect images (self, p)).2.1 = config self /\
  self_keras_model (detect images (self, p)).2.1 = self_keras_model self.
Proof.
  intros Hsound.
  destruct (accepted_shape (config self) images) as [s|] eqn:Hacc.
  - destruct (get_anchors_sound self p s Hsound)
      as (r & self1 & p1 & Hget & Hs1 & Hr & _ & _ & Hcfg & Hmodel & _).
    rewrite (detect_accepted _ _ _ _ _ _ _ Hacc Hget Hr Hmodel).
    cbn [fst snd]. repeat split; try assumption.
  - destruct (detect_rejected images self p Hacc) as [-> _].
    by repeat split.
Qed.

(** X4: from a sound cache, a call of [detect] that accepts its batch
    generates anchors for the molded shape if the cache does not hold it,
    and for no other shape, and then calls the predictor once; a call that
    rejects its batch does neither. *)
Theorem detect_events (images : list image) (self : MaskRCNN U)
    (p : process) :
  cache_sound self p ->
  trace (detect images (self, p)).2.2 =
  trace p ++
  match accepted_shape (config self) images with
  | Some s =>
      match cache_of self !! s with
      | Some _ => []
      | None => [Generate s]
      end ++ [Predict]
  | None => []
  end.
Proof.
  intros Hsound.
  destruct (accepted_shape (config self) images) as [s|] eqn:Hacc.
  - destruct (get_anchors_sound self p s Hsound)
      as (r & self1 & p1 & Hget & _ & Hr & _ & _ & _ & Hmodel & _ & Htr).
    rewrite (detect_accepted _ _ _ _ _ _ _ Hacc Hget Hr Hmodel).
    cbn [fst snd log trace]. rewrite Htr. by rewrite app_assoc.
  - destruct (detect_rejected images self p Hacc) as [-> _].
    by rewrite app_nil_r.
Qed.

(** X5: a successful [detect] can be repeated: from a sound cache, the same
    batch given again to the instance returns the same records, generates no
    anchors and changes nothing but the record of the predictor call. *)
Theorem detect_repeatable (images : list image) (self : MaskRCNN U)
    (p : process) (results : list (result_record U))
    (st1 : MaskRCNN U * process) :
  cache_sound self p ->
  detect images (self, p) = (Ok results, st1) ->
  detect images st1 = (Ok results, (st1.1, log Predict st1.2)).
Proof.
  intros Hsound Hrun.
  destruct (accepted_shape (config self) images) as [s|] eqn:Hacc.
  - destruct (get_anchors_sound self p s Hsound)
      as (r & self1 & p1 & Hget & Hs1 & Hr & Hattr & Hc1 & Hcfg & Hmodel & _).
    rewrite (detect_accepted _ _ _ _ _ _ _ Hacc Hget Hr Hmodel) in Hrun.
    injection Hrun as Hres <-. cbn [fst snd].
    assert (Hget2 : get_anchors s (self1, log Predict p1) =
                    (Ok r, (self1, log Predict p1))).
    { rewrite (get_anchors_hit _ _ _ _ Hc1). by rewrite (self_eta _ Hattr). }
    rewrite <- Hcfg in Hacc.
    rewrite (detect_accepted _ _ _ _ _ _ _ Hacc Hget2).
    + by rewrite (detect_uncached_ext _ _ _ Hcfg Hmodel), Hres.
    + rewrite Hcfg. exact Hr.
    + reflexivity.
  - destruct (detect_rejected images self p Hacc) as [Heq [e He]].
    rewrite Heq, He in Hrun. discriminate.
Qed.

(** X6: an empty batch is never accepted: [detect] raises with the state
    unchanged, by the assertion on the number of images when [BATCH_SIZE] is
    not 0 and by the stacking of an empty list when it is. *)
Theorem detect_empty_batch (st : MaskRCNN U * process) :
  (BATCH_SIZE (config st.1) = 0 -> detect [] st = (Raise ValueError, st)) /\
  (BATCH_SIZE (config st.1) <> 0 ->
   detect [] st = (Raise (AssertionError batch_message), st)).
Proof.
  destruct st as [self p]. cbn [fst]. rewrite detect_eq. split.
  - intros ->. reflexivity.
  - intros Hne. destruct (BATCH_SIZE (config self)); [done|reflexivity].
Qed.

End DetectRuns.

(** ** When the molding and the detection succeed *)

Section Success.

Context {U : Utils}.

Lemma mapM_total {A B} (f : A -> result B) (l : list A) :
  (forall x, x ∈ l -> exists y, f x = Ok y) -> exists k, mapM f l = Ok k.
Proof.
  induction l as [|x l IH]; intros H; simpl.
  - by exists [].
  - destruct (H x) as [y Hy]; [by left|].
    destruct IH as [k Hk]; [intros z Hz; apply H; by right|].
    exists (y :: k). by rewrite Hy, bind_Ok, Hk.
Qed.

Lemma np_stack_same {A} (shape_of : A -> list nat) (arrays : list A) :
  arrays <> [] ->
  (forall a b, a ∈ arrays -> b ∈ arrays -> shape_of a = shape_of b) ->
  np_stack shape_of arrays = Ok arrays.
Proof.
  intros Hne Hsame.
  destruct (np_stack_cases shape_of arrays)
    as [(H & _)|(_ & [->|(a & b & Ha & Hb & Hab)])]; [assumption|done|].
  exfalso. by apply Hab, Hsame.
Qed.

Lemma mold_inputs_accepts (cfg : Config) (images : list image) :
  images <> [] ->
  (forall a b, a ∈ images -> b ∈ images ->
     shape (mold_one cfg a).1.1 = shape (mold_one cfg b).1.1) ->
  (forall a b, a ∈ images -> b ∈ images ->
     meta_shape (mold_one cfg a).1.2 = meta_shape (mold_one cfg b).1.2) ->
  mold_inputs cfg images =
  Ok (map (fun img => (mold_one cfg img).1.1) images,
      map (fun img => (mold_one cfg img).1.2) images,
      map (fun img => (mold_one cfg img).2) images).
Proof.
  intros Hne Hshape Hmeta. unfold mold_inputs. rewrite !map_map.
  assert (Hmap : forall {B} (f : image -> B), map f images <> [])
    by (intros B f; destruct images; [done|discriminate]).
  rewrite (np_stack_same shape); [|apply Hmap|].
  2:{ intros a b (x & -> & Hx)%list_elem_of_fmap
                 (y & -> & Hy)%list_elem_of_fmap. by apply Hshape. }
  rewrite bind_Ok, (np_stack_same meta_shape); [|apply Hmap|].
  2:{ intros a b (x & -> & Hx)%list_elem_of_fmap
                 (y & -> & Hy)%list_elem_of_fmap. by apply Hmeta. }
  rewrite bind_Ok, (np_stack_same (fun _ : box => [4]));
    [reflexivity|apply Hmap|done].
Qed.

(** X7: [mold_inputs] succeeds exactly on a batch of at least one image
    whose molded images have one shape and whose metas have one shape, and
    then returns the molded image, meta and window of every image, in
    order; on every other batch it raises [ValueError]. *)
Theorem mold_inputs_outcome (cfg : Config) (images : list image) :
  let accepted :=
    images <> [] /\
    (forall a b, a ∈ images -> b ∈ images ->
       shape (mold_one cfg a).1.1 = shape (mold_one cfg b).1.1) /\
    (forall a b, a ∈ images -> b ∈ images ->
       meta_shape (mold_one cfg a).1.2 = meta_shape (mold_one cfg b).1.2) in
  (accepted ->
   mold_inputs cfg images =
   Ok (map (fun img => (mold_one cfg img).1.1) images,
       map (fun img => (mold_one cfg img).1.2) images,
       map (fun img => (mold_one cfg img).2) images)) /\
  (forall r, mold_inputs cfg images = Ok r -> accepted) /\
  (forall e, mold_inputs cfg images = Raise e -> e = ValueError).
Proof.
  cbv zeta. split; [|split].
  - intros (Hne & Hshape & Hmeta). by apply mold_inputs_accepts.
  - intros [[molded metas] windows]. unfold mold_inputs. rewrite !map_map.
    destruct (np_stack_cases shape
                (map (fun x => (mold_one cfg x).1.1) images))
      as [(-> & Hne & Hshape)|[-> _]]; [|discriminate].
    rewrite bind_Ok.
    destruct (np_stack_cases meta_shape
                (map (fun x => (mold_one cfg x).1.2) images))
      as [(-> & _ & Hmeta)|[-> _]]; [|discriminate].
    intros _. split; [|split].
    + intros ->. by apply Hne.
    + intros a b Ha Hb. apply Hshape; apply list_elem_of_fmap; eauto.
    + intros a b Ha Hb. apply Hmeta; apply list_elem_of_fmap; eauto.
  - intros e. unfold mold_inputs. rewrite !map_map.
    destruct (np_stack_cases shape
                (map (fun x => (mold_one cfg x).1.1) images))
      as [(-> & _ & _)|[-> _]]; [|by intros [= <-]].
    rewrite bind_Ok.
    destruct (np_stack_cases meta_shape
                (map (fun x => (mold_one cfg x).1.2) images))
      as [(-> & _ & _)|[-> _]]; [|by intros [= <-]].
    rewrite bind_Ok.
    destruct (np_stack_cases (fun _ : box => [4])
                (map (fun x => (mold_one cfg x).2) images))
      as [(-> & _ & _)|[-> _]]; [discriminate|by intros [= <-]].
Qed.

(** X8: [detect] returns a list of records, one per image, whenever the
    batch has [BATCH_SIZE] images, at least one, the molded images have one
    shape and the metas one shape, the cache is sound, the predictor's
    outputs fit together for every image and [unmold_mask] fills a canvas
    of the original extents. *)
Theorem detect_succeeds (images : list image) (self : MaskRCNN U)
    (p : process) :
  unmold_mask_on_canvas ->
  cache_sound self p ->
  length images = BATCH_SIZE (config self) ->
  images <> [] ->
  (forall a b, a ∈ images -> b ∈ images ->
     shape (mold_one (config self) a).1.1 =
     shape (mold_one (config self) b).1.1) ->
  (forall a b, a ∈ images -> b ∈ images ->
     meta_shape (mold_one (config self) a).1.2 =
     meta_shape (mold_one (config self) b).1.2) ->
  predictor_fits self images ->
  exists results st',
    detect images (self, p) = (Ok results, st') /\
    length results = length images.
Proof.
  intros Hcanvas Hsound Hlen Hne Hshape Hmeta Hfit.
  pose proof (mold_inputs_accepts (config self) images Hne Hshape Hmeta)
    as Hmold.
  pose proof (detect_result_uncached images self p Hsound) as Hres.
  destruct (detect images (self, p)) as [res st'] eqn:Hrun.
  cbn [fst] in Hres. subst res.
  assert (Hok : exists results, detect_uncached self images = Ok results).
  { unfold detect_uncached. cbv zeta.
    rewrite (proj2 (Nat.eqb_eq _ _) Hlen).
    change (assert_ true batch_message) with (Ok tt). rewrite bind_Ok, Hmold.
    rewrite bind_Ok.
    destruct images as [|img0 images']; [done|].
    set (images := img0 :: images') in *.
    set (molded := map (fun img => (mold_one (config self) img).1.1) images)
      in *.
    set (metas := map (fun img => (mold_one (config self) img).1.2) images)
      in *.
    set (windows := map (fun img => (mold_one (config self) img).2) images)
      in *.
    assert (Hg0 : molded !! 0 = Some (mold_one (config self) img0).1.1)
      by reflexivity.
    rewrite (proj2 (getitem_Ok _ _ _) Hg0), bind_Ok.
    destruct (asserts_pass molded (mold_one (config self) img0).1.1)
      as [u Hu]; [|exact Hg0|].
    { by apply mold_inputs_Ok in Hmold as (_ & _ & _ & _ & ?). }
    rewrite Hu, bind_Ok.
    specialize (Hfit molded metas windows _ Hmold Hg0). cbv zeta in Hfit.
    set (out := predict _ _ _ _) in *.
    apply mapM_total. intros [i img] Hin.
    apply list_elem_of_lookup_1 in Hin as [j Hj].
    apply list_lookup_imap_Some in Hj as (img' & Himg & [= Hi Himg']).
    subst i img.
    cbn [fst snd]. unfold detect_one.
    destruct (Hfit j) as (d & m & Hd & Hm & Hdm);
      [by eapply lookup_lt_Some|].
    rewrite (proj2 (getitem_Ok _ _ _) Hd), bind_Ok.
    rewrite (proj2 (getitem_Ok _ _ _) Hm), bind_Ok.
    assert (Hg : molded !! j = Some (mold_one (config self) img').1.1)
      by (unfold molded; by rewrite list_lookup_fmap, Himg).
    assert (Hw : windows !! j = Some (mold_one (config self) img').2)
      by (unfold windows; by rewrite list_lookup_fmap, Himg).
    rewrite (proj2 (getitem_Ok _ _ _) Hg), bind_Ok.
    rewrite (proj2 (getitem_Ok _ _ _) Hw), bind_Ok.
    rewrite (unmold_detections_eq _ _ _ _ _ Hcanvas).
    destruct (select_masks_fit _ _ Hdm) as [selected ->].
    rewrite !bind_Ok. cbv zeta. eauto. }
  destruct Hok as [results Hok]. exists results, st'.
  rewrite Hok. split; [reflexivity|].
  unfold detect_uncached in Hok. cbv zeta in Hok.
  rewrite (proj2 (Nat.eqb_eq _ _) Hlen), Hmold in Hok.
  change (assert_ true batch_message) with (Ok tt) in Hok.
  rewrite !bind_Ok in Hok.
  destruct (getitem _ 0) as [g0|e]; [|discriminate].
  rewrite bind_Ok in Hok.
  destruct (mapM _ (drop 1 _)) as [u|e]; [|discriminate].
  rewrite bind_Ok in Hok. apply mapM_Ok, Forall2_length in Hok.
  rewrite length_imap in Hok. lia.
Qed.

End Success.

(** ** More on the assembly *)

Section AssemblyMore.

Context {U : Utils}.

Implicit Types (detections : list detection)
  (mrcnn_mask : list (list raw_mask)) (window : box)
  (original_image_shape image_shape : list nat).

Lemma mapM_fails {A B} (f : A -> result B) (l : list A) (x : A) (e : exn) :
  x ∈ l -> f x = Raise e -> exists e', mapM f l = Raise e'.
Proof.
  intros Hx Hfx. destruct (mapM f l) as [k|e'] eqn:Hk; [|by exists e'].
  apply mapM_Ok in Hk. apply list_elem_of_lookup_1 in Hx as [i Hi].
  destruct (Forall2_lookup_l _ _ _ _ _ Hk Hi) as (y & _ & Hy). congruence.
Qed.

Lemma getitem_None {A} (l : list A) (i : nat) :
  l !! i = None -> getitem l i = Raise IndexError.
Proof. unfold getitem. by intros ->. Qed.

Lemma index_Ok_lt (len : nat) (c : Z) (k : nat) :
  Np.index len c = Ok k ->
  k < len /\ (- Z.of_nat len <= c < Z.of_nat len)%Z.
Proof.
  unfold Np.index.
  destruct ((0 <=? c)%Z && (c <? Z.of_nat len)%Z) eqn:H1.
  - apply andb_true_iff in H1 as [?%Z.leb_le ?%Z.ltb_lt].
    intros [= <-]. lia.
  - destruct ((- Z.of_nat len <=? c)%Z && (c <? 0)%Z) eqn:H2;
      [|discriminate].
    apply andb_true_iff in H2 as [?%Z.leb_le ?%Z.ltb_lt].
    intros [= <-]. lia.
Qed.

Lemma index_Raise (len : nat) (c : Z) (e : exn) :
  Np.index len c = Raise e ->
  e = IndexError /\ ~ (- Z.of_nat len <= c < Z.of_nat len)%Z.
Proof.
  unfold Np.index.
  destruct ((0 <=? c)%Z && (c <? Z.of_nat len)%Z) eqn:H1; [discriminate|].
  destruct ((- Z.of_nat len <=? c)%Z && (c <? 0)%Z) eqn:H2; [discriminate|].
  intros [= <-]. split; [reflexivity|].
  apply andb_false_iff in H1, H2.
  rewrite Z.leb_gt, Z.ltb_ge in H1, H2. lia.
Qed.

(** A row whose mask cannot be selected: no mask row, or a class id outside
    the class channels (counting from the end when negative). *)
Lemma select_masks_fails_iff mrcnn_mask detections :
  (exists e,
     select_masks mrcnn_mask (valid_count detections)
       (map (fun d => Np.astype_int32 (det_class_id d))
            (take (valid_count detections) detections)) = Raise e) <->
  exists i d,
    i < valid_count detections /\ detections !! i = Some d /\
    match mrcnn_mask !! i with
    | None => True
    | Some row =>
        ~ (- Z.of_nat (length row) <= Np.astype_int32 (det_class_id d)
           < Z.of_nat (length row))%Z
    end.
Proof.
  destruct (valid_count_spec detections) as (Hle & _ & _).
  set (N := valid_count detections) in *.
  set (cids := map _ (take N detections)).
  assert (Hzip : forall i c, (i, c) ∈ zip (seq 0 N) cids <->
            i < N /\ exists d, detections !! i = Some d /\
                               c = Np.astype_int32 (det_class_id d)).
  { intros i c. rewrite list_elem_of_lookup. split.
    - intros (j & Hj). apply lookup_zip_with_Some in Hj
        as (i' & c' & Heq & Hi & Hc).
      injection Heq as -> ->.
      apply lookup_seq in Hi as [-> Hj]. simpl in *. split; [assumption|].
      unfold cids in Hc. rewrite list_lookup_fmap in Hc.
      destruct (take N detections !! j) as [d|] eqn:Hd; [|discriminate].
      injection Hc as <-. apply lookup_take_Some in Hd as [Hd _]. eauto.
    - intros (Hi & d & Hd & ->). exists i.
      apply lookup_zip_with_Some. exists i, (Np.astype_int32 (det_class_id d)).
      repeat split; [by apply lookup_seq_lt|].
      unfold cids. by rewrite list_lookup_fmap, lookup_take_lt, Hd. }
  unfold select_masks. split.
  - intros (e & ([i c] & Hic & Hf)%mapM_Raise).
    apply Hzip in Hic as (Hi & d & Hd & ->). exists i, d.
    do 2 (split; [assumption|]). cbn [fst snd] in Hf.
    destruct (mrcnn_mask !! i) as [row|] eqn:Hrow; [|done].
    rewrite (proj2 (getitem_Ok _ _ _) Hrow), bind_Ok in Hf.
    destruct (Np.index _ _) as [k|e'] eqn:Hk;
      [|by apply index_Raise in Hk as [_ ?]].
    rewrite bind_Ok in Hf. apply index_Ok_lt in Hk as [Hk _].
    apply lookup_lt_is_Some_2 in Hk as [m Hm].
    rewrite (proj2 (getitem_Ok _ _ _) Hm) in Hf. discriminate.
  - intros (i & d & Hi & Hd & Hbad).
    apply (mapM_fails _ _ (i, Np.astype_int32 (det_class_id d)) IndexError).
    + apply Hzip. eauto.
    + cbn [fst snd].
      destruct (mrcnn_mask !! i) as [row|] eqn:Hrow;
        [|by rewrite (getitem_None _ _ Hrow)].
      rewrite (proj2 (getitem_Ok _ _ _) Hrow), bind_Ok.
      destruct (Np.index _ _) as [k|e'] eqn:Hk.
      * apply index_Ok_lt in Hk as [_ Hk]. done.
      * by apply index_Raise in Hk as [-> _].
Qed.

(** X9: when [unmold_mask] fills a canvas of the original extents,
    [unmold_detections] raises exactly when one of the first [N] rows has no
    mask row or a class id outside the class channels of its mask row, and
    what it raises is [IndexError]; this holds also when the row would have
    been dropped for its area. *)
Theorem unmold_detections_raises_iff detections mrcnn_mask
    original_image_shape image_shape window :
  unmold_mask_on_canvas ->
  ((exists e,
      unmold_detections detections mrcnn_mask original_image_shape
                        image_shape window = Raise e) <->
   exists i d,
     i < valid_count detections /\ detections !! i = Some d /\
     match mrcnn_mask !! i with
     | None => True
     | Some row =>
         ~ (- Z.of_nat (length row) <= Np.astype_int32 (det_class_id d)
            < Z.of_nat (length row))%Z
     end) /\
  (forall e,
     unmold_detections detections mrcnn_mask original_image_shape
                       image_shape window = Raise e -> e = IndexError).
Proof.
  intros Hcanvas. rewrite (unmold_detections_eq _ _ _ _ _ Hcanvas).
  rewrite <- select_masks_fails_iff. split; [split|].
  - intros [e He]. destruct (select_masks _ _ _) as [sel|e']; [discriminate|].
    by exists e'.
  - intros [e ->]. by exists e.
  - intros e. destruct (select_masks _ _ _) as [sel|e'] eqn:Hsel;
      [discriminate|].
    rewrite bind_Raise. intros [= <-]. by apply select_masks_Raise in Hsel.
Qed.

Lemma filter_sublist {A} (p : A -> bool) (l : list A) :
  sublist (List.filter p l) l.
Proof.
  induction l as [|x l IH]; simpl; [constructor|].
  destruct (p x); [by apply sublist_skip | by apply sublist_cons].
Qed.

(** X10: [unmold_detections] neither reorders nor invents rows: the scores
    and the class ids it returns are, in order, scores and class ids of the
    detections it was given, taken from the first [N] rows, so at most [N]
    of them. *)
Theorem unmold_detections_keeps_order detections mrcnn_mask
    original_image_shape image_shape window boxes cids scs stack :
  unmold_detections detections mrcnn_mask original_image_shape image_shape
                    window = Ok (boxes, cids, scs, stack) ->
  sublist scs (map det_score (take (valid_count detections) detections)) /\
  sublist scs (map det_score detections) /\
  sublist cids (map (fun d => Np.astype_int32 (det_class_id d)) detections) /\
  length boxes <= valid_count detections /\
  valid_count detections <= length detections.
Proof.
  intros Hok.
  destruct (unmold_detections_Ok _ _ _ _ _ _ _ _ _ Hok)
    as (selected & Hsel & -> & -> & -> & _).
  destruct (valid_count_spec detections) as (Hle & _ & _).
  apply select_masks_Ok in Hsel as [Hlen _];
    [|rewrite length_map, length_take; lia].
  set (N := valid_count detections) in *.
  set (pre := take N detections).
  assert (Hpre : length pre = N) by (unfold pre; rewrite length_take; lia).
  unfold kept_rows. fold N. fold pre.
  set (w := norm_boxes window (take 2 image_shape)).
  set (rows := map (unmolded_row w original_image_shape) (zip pre selected)).
  assert (Hs : map row_score rows = map det_score pre).
  { unfold rows. rewrite map_map. rewrite <- (fst_zip pre selected) at 2 by lia.
    by rewrite map_map. }
  assert (Hc : map row_class_id rows =
               map (fun d => Np.astype_int32 (det_class_id d)) pre).
  { unfold rows. rewrite map_map. rewrite <- (fst_zip pre selected) at 2 by lia.
    by rewrite map_map. }
  assert (Hsub : sublist pre detections) by apply sublist_take.
  pose proof (filter_sublist (fun r => negb (zero_area (row_box r))) rows)
    as Hf.
  repeat split.
  - rewrite <- Hs. by apply (fmap_sublist row_score).
  - transitivity (map row_score rows);
      [apply (fmap_sublist row_score), Hf|].
    rewrite Hs. by apply (fmap_sublist det_score).
  - transitivity (map row_class_id rows);
      [apply (fmap_sublist row_class_id), Hf|].
    rewrite Hc. by apply (fmap_sublist _).
  - rewrite length_map. apply sublist_length in Hf.
    assert (length rows = N)
      by (unfold rows; rewrite length_map, length_zip; lia).
    lia.
  - assumption.
Qed.

(** X11: when there is no detection row, or the first one is padding, the
    result is the empty record whatever the mask array holds, even with no
    mask row at all: nothing is indexed. *)
Theorem unmold_detections_all_padding detections mrcnn_mask
    original_image_shape image_shape window :
  match detections with
  | [] => True
  | d :: _ => (det_class_id d == 0)%Q
  end ->
  unmold_detections detections mrcnn_mask original_image_shape image_shape
                    window =
  Ok ([], [], [], MaskStack (take 2 original_image_shape ++ [0]) []).
Proof.
  intros Hpad.
  assert (HN : valid_count detections = 0).
  { destruct detections as [|d rest]; [reflexivity|].
    apply Qeq_bool_iff in Hpad. unfold valid_count, Np.where_. simpl.
    unfold is_padding. by rewrite Hpad. }
  rewrite unmold_detections_take, HN. reflexivity.
Qed.

Lemma within_unit (a c y : Q) :
  (a < c)%Q -> (a <= y)%Q -> (y <= c)%Q ->
  (0 <= (y - a) / (c - a))%Q /\ ((y - a) / (c - a) <= 1)%Q.
Proof.
  intros Hac Hay Hyc. split.
  - apply Qle_shift_div_l; lra.
  - apply Qle_shift_div_r; lra.
Qed.

(** X12: for a window with positive height and width, the map of
    [unmold_detections] takes a box to the denormalisation of a box that
    lies in the unit square whenever the box lies in the window, and that is
    the unit square itself for the window. *)
Theorem unmold_box_window_to_unit window original_image_shape (b : box) :
  (y1 window < y2 window)%Q -> (x1 window < x2 window)%Q ->
  exists u,
    unmold_box window original_image_shape b =
    denorm_boxes u (take 2 original_image_shape) /\
    ((y1 window <= y1 b)%Q -> (y1 b <= y2 window)%Q ->
     (0 <= y1 u)%Q /\ (y1 u <= 1)%Q) /\
    ((x1 window <= x1 b)%Q -> (x1 b <= x2 window)%Q ->
     (0 <= x1 u)%Q /\ (x1 u <= 1)%Q) /\
    ((y1 window <= y2 b)%Q -> (y2 b <= y2 window)%Q ->
     (0 <= y2 u)%Q /\ (y2 u <= 1)%Q) /\
    ((x1 window <= x2 b)%Q -> (x2 b <= x2 window)%Q ->
     (0 <= x2 u)%Q /\ (x2 u <= 1)%Q) /\
    ((y1 b == y1 window)%Q -> (y1 u == 0)%Q) /\
    ((x1 b == x1 window)%Q -> (x1 u == 0)%Q) /\
    ((y2 b == y2 window)%Q -> (y2 u == 1)%Q) /\
    ((x2 b == x2 window)%Q -> (x2 u == 1)%Q).
Proof.
  destruct window as [wy1 wx1 wy2 wx2]. simpl. intros Hy Hx.
  eexists. split; [reflexivity|]. simpl.
  assert (H0 : forall a c y : Q, (y == a)%Q -> ((y - a) / (c - a) == 0)%Q).
  { intros a c y Hya. unfold Qdiv.
    assert (Hz : (y - a == 0)%Q) by lra. rewrite Hz. apply Qmult_0_l. }
  assert (H1 : forall a c y : Q, (a < c)%Q -> (y == c)%Q ->
                                 ((y - a) / (c - a) == 1)%Q).
  { intros a c y Hac Hyc. rewrite Hyc. unfold Qdiv.
    apply Qmult_inv_r. lra. }
  repeat split; try (by apply within_unit); try apply H0; try apply H1;
    assumption.
Qed.

End AssemblyMore.

(** X13: [build], and with it the construction of a detector, raises
    [ValueError] when [IMAGE_SHAPE] has fewer than two extents, before any
    size is checked. *)
Theorem build_short_shape `{U : Utils} (cfg : Config) :
  length (IMAGE_SHAPE cfg) < 2 ->
  build cfg = Raise ValueError /\ init cfg = Raise ValueError.
Proof.
  intros Hlen. unfold init, build.
  destruct (IMAGE_SHAPE cfg) as [|h [|w rest]]; simpl in *;
    [done|done|lia].
Qed.

(** ** The further properties on the stub *)

Lemma stub_cache_sound : cache_sound (U := Stub.utils) Stub.detector Stub.fresh.
Proof. intros s r H. vm_compute in H. discriminate. Defined.

Lemma stub_predictor_fits :
  predictor_fits (U := Stub.utils) Stub.detector [Stub.img128; Stub.img128].
Proof.
  intros molded metas windows g0 Hmold Hg0. simpl.
  vm_compute in Hmold. injection Hmold as <- <- <-.
  intros [|[|i]] Hi; [| |simpl in Hi; lia];
    exists Stub.stub_detections, Stub.stub_masks;
    (split; [reflexivity|]); (split; [reflexivity|]);
    exact stub_outputs_fit.
Defined.

Lemma stub_same_shapes (a b : list nat) :
  a ∈ [Stub.img128; Stub.img128] -> b ∈ [Stub.img128; Stub.img128] ->
  a = Stub.img128 /\ b = Stub.img128.
Proof.
  intros Ha Hb. rewrite !elem_of_cons in Ha, Hb.
  rewrite elem_of_nil in Ha, Hb. intuition.
Defined.

Lemma anchors_attribute_is_last_generated_witness :
  cache_of Stub.warm.1 !! Stub.img128 = None /\
  is_Some (cache_of Stub.warm.1 !! Stub.img65) /\
  exists ra,
    anchors (get_anchors Stub.img65
               (get_anchors Stub.img128 Stub.warm).2).2.1 = Some ra /\
    arrays (get_anchors Stub.img65
              (get_anchors Stub.img128 Stub.warm).2).2.2 !! ra =
    Some (pixel_anchors_for (U := Stub.utils) Stub.cfg Stub.img128).
Proof.
  assert (H1 : cache_of Stub.warm.1 !! Stub.img128 = None)
    by (vm_compute; reflexivity).
  assert (H2 : is_Some (cache_of Stub.warm.1 !! Stub.img65))
    by (eexists; vm_compute; reflexivity).
  split; [exact H1|]. split; [exact H2|].
  destruct (anchors_attribute_is_last_generated (U := Stub.utils)
              Stub.warm.1 Stub.warm.2 Stub.img65 Stub.img128 H1 H2)
    as (ra & Ha & Hr & _).
  exists ra. split; [exact Ha|exact Hr].
Defined.

Lemma detect_agrees_with_uncached_witness :
  cache_sound (U := Stub.utils) Stub.detector Stub.fresh /\
  (detect (U := Stub.utils) [Stub.img128; Stub.img128]
          (Stub.detector, Stub.fresh)).1 =
  detect_uncached Stub.detector [Stub.img128; Stub.img128].
Proof.
  split; [exact stub_cache_sound|].
  exact (proj1 (detect_agrees_with_uncached (U := Stub.utils) _ _ _
                  stub_cache_sound)).
Defined.

Lemma detect_events_witness :
  cache_sound (U := Stub.utils) Stub.detector Stub.fresh /\
  trace (detect (U := Stub.utils) [Stub.img128; Stub.img128]
                (Stub.detector, Stub.fresh)).2.2 =
  [Generate Stub.img128; Predict].
Proof.
  split; [exact stub_cache_sound|].
  exact (detect_events (U := Stub.utils) [Stub.img128; Stub.img128]
           Stub.detector Stub.fresh stub_cache_sound).
Defined.

Lemma detect_repeatable_witness :
  cache_sound (U := Stub.utils) Stub.detector Stub.fresh /\
  detect (U := Stub.utils) [Stub.img128; Stub.img128]
         (Stub.detector, Stub.fresh) =
  (Ok Stub.stub_results, Stub.stub_run.2) /\
  detect (U := Stub.utils) [Stub.img128; Stub.img128] Stub.stub_run.2 =
  (Ok Stub.stub_results, (Stub.stub_run.2.1, log Predict Stub.stub_run.2.2)).
Proof.
  assert (Hrun : detect (U := Stub.utils) [Stub.img128; Stub.img128]
                        (Stub.detector, Stub.fresh) =
                 (Ok Stub.stub_results, Stub.stub_run.2))
    by (vm_compute; reflexivity).
  split; [exact stub_cache_sound|]. split; [exact Hrun|].
  exact (detect_repeatable (U := Stub.utils) _ _ _ _ _ stub_cache_sound Hrun).
Defined.

Lemma detect_succeeds_witness :
  unmold_mask_on_canvas (U := Stub.utils) /\
  cache_sound (U := Stub.utils) Stub.detector Stub.fresh /\
  predictor_fits (U := Stub.utils) Stub.detector [Stub.img128; Stub.img128] /\
  exists results st',
    detect (U := Stub.utils) [Stub.img128; Stub.img128]
           (Stub.detector, Stub.fresh) = (Ok results, st') /\
    length results = 2.
Proof.
  split; [exact stub_unmold_mask_on_canvas|].
  split; [exact stub_cache_sound|].
  split; [exact stub_predictor_fits|].
  apply (detect_succeeds (U := Stub.utils) [Stub.img128; Stub.img128]
           Stub.detector Stub.fresh stub_unmold_mask_on_canvas
           stub_cache_sound).
  - reflexivity.
  - discriminate.
  - intros a b Ha Hb. destruct (stub_same_shapes a b Ha Hb) as [-> ->].
    reflexivity.
  - intros a b Ha Hb. destruct (stub_same_shapes a b Ha Hb) as [-> ->].
    reflexivity.
  - exact stub_predictor_fits.
Defined.

Lemma unmold_detections_raises_iff_witness :
  unmold_mask_on_canvas (U := Stub.utils) /\
  exists e,
    unmold_detections (U := Stub.utils) Stub.stray_detections
      Stub.stub_masks Stub.img128 Stub.img128 Stub.window128 = Raise e.
Proof.
  split; [exact stub_unmold_mask_on_canvas|].
  apply (proj1 (unmold_detections_raises_iff (U := Stub.utils)
                  Stub.stray_detections Stub.stub_masks Stub.img128
                  Stub.img128 Stub.window128 stub_unmold_mask_on_canvas)).
  exists 0, (Detection (Box 0 0 1 1) 5 (9 # 10)).
  split; [vm_compute; lia|]. split; [reflexivity|].
  vm_compute. intros [_ H]. discriminate H.
Defined.

Lemma unmold_detections_keeps_order_witness :
  unmold_detections (U := Stub.utils) Stub.stub_detections Stub.stub_masks
                    Stub.img128 Stub.img128 Stub.window128 =
  Ok (Stub.stub_output.1.1.1, Stub.stub_output.1.1.2, Stub.stub_output.1.2,
      Stub.stub_output.2) /\
  sublist Stub.stub_output.1.2 (map det_score Stub.stub_detections) /\
  length Stub.stub_output.1.1.1 <= valid_count Stub.stub_detections.
Proof.
  split; [exact stub_unmolds|].
  destruct (unmold_detections_keeps_order (U := Stub.utils)
              _ _ _ _ _ _ _ _ _ stub_unmolds) as (_ & Hs & _ & Hl & _).
  split; assumption.
Defined.

Lemma unmold_detections_all_padding_witness :
  (det_class_id (Detection (Box 0 0 0 0) 0 0) == 0)%Q /\
  unmold_detections (U := Stub.utils)
    [Detection (Box 0 0 0 0) 0 0; Detection (Box 0 0 1 1) 1 (7 # 10)]
    [] Stub.img128 Stub.img128 Stub.window128 =
  Ok ([], [], [], MaskStack [128; 128; 0] []).
Proof.
  split; [reflexivity|].
  apply (unmold_detections_all_padding (U := Stub.utils)
           [Detection (Box 0 0 0 0) 0 0; Detection (Box 0 0 1 1) 1 (7 # 10)]).
  reflexivity.
Defined.

Lemma unmold_box_window_to_unit_witness :
  (y1 (Box 0 0 (128 # 127) (128 # 127)) <
   y2 (Box 0 0 (128 # 127) (128 # 127)))%Q /\
  exists u,
    unmold_box (U := Stub.utils) (Box 0 0 (128 # 127) (128 # 127))
               Stub.img128 (Box 0 0 (128 # 127) (128 # 127)) =
    Stub.denorm_boxes_spec u [128; 128] /\
    (y1 u == 0)%Q /\ (x1 u == 0)%Q /\ (y2 u == 1)%Q /\ (x2 u == 1)%Q.
Proof.
  assert (H : (0 < 128 # 127)%Q) by reflexivity.
  split; [exact H|].
  destruct (unmold_box_window_to_unit (U := Stub.utils)
              (Box 0 0 (128 # 127) (128 # 127)) Stub.img128
              (Box 0 0 (128 # 127) (128 # 127)) H H)
    as (u & Hu & _ & _ & _ & _ & Hy1 & Hx1 & Hy2 & Hx2).
  exists u. split; [exact Hu|].
  repeat split; [apply Hy1|apply Hx1|apply Hy2|apply Hx2]; reflexivity.
Defined.

Lemma build_short_shape_witness :
  length (IMAGE_SHAPE Stub.short_cfg) < 2 /\
  init (U := Stub.utils) Stub.short_cfg = Raise ValueError.
Proof.
  assert (H : length (IMAGE_SHAPE Stub.short_cfg) < 2) by (simpl; lia).
  split; [exact H|].
  exact (proj2 (build_short_shape (U := Stub.utils) Stub.short_cfg H)).
Defined.

Lemma get_anchors_returns_normalised_anchors_witness :
  init (U := Stub.utils) Stub.cfg = Ok Stub.detector /\
  exists r self1 p1,
    get_anchors (U := Stub.utils) Stub.img128 (Stub.detector, Stub.fresh) =
    (Ok r, (self1, p1)) /\
    arrays p1 !! r = Some (anchors_for (U := Stub.utils) Stub.cfg Stub.img128).
Proof.
  assert (Hinit : init (U := Stub.utils) Stub.cfg = Ok Stub.detector)
    by reflexivity.
  split; [exact Hinit|].
  destruct (get_anchors_returns_normalised_anchors (U := Stub.utils))
    as [Hfresh Hcall].
  destruct (Hcall Stub.detector Stub.fresh Stub.img128
              (Hfresh Stub.cfg Stub.detector Stub.fresh Hinit))
    as (r & self1 & p1 & Hrun & Hr & _).
  exists r, self1, p1. split; [exact Hrun|exact Hr].
Defined.

Lemma detect_empty_batch_witness :
  BATCH_SIZE (config Stub.detector) <> 0 /\
  detect (U := Stub.utils) [] (Stub.detector, Stub.fresh) =
  (Raise (AssertionError batch_message), (Stub.detector, Stub.fresh)).
Proof.
  assert (H : BATCH_SIZE (config Stub.detector) <> 0) by discriminate.
  split; [exact H|].
  exact (proj2 (detect_empty_batch (U := Stub.utils)
                  (Stub.detector, Stub.fresh)) H).
Defined.

Lemma mold_inputs_outcome_witness :
  mold_inputs (U := Stub.utils) Stub.cfg [Stub.img128; Stub.img128] =
  Ok (map (fun img => (mold_one (U := Stub.utils) Stub.cfg img).1.1)
          [Stub.img128; Stub.img128],
      map (fun img => (mold_one (U := Stub.utils) Stub.cfg img).1.2)
          [Stub.img128; Stub.img128],
      map (fun img => (mold_one (U := Stub.utils) Stub.cfg img).2)
          [Stub.img128; Stub.img128]).
Proof.
  apply (proj1 (mold_inputs_outcome (U := Stub.utils) Stub.cfg
                  [Stub.img128; Stub.img128])).
  split; [discriminate|]. split.
  - intros a b Ha Hb. destruct (stub_same_shapes a b Ha Hb) as [-> ->].
    reflexivity.
  - intros a b Ha Hb. destruct (stub_same_shapes a b Ha Hb) as [-> ->].
    reflexivity.
Defined.
